(** * vs-deploy: the local-folder deploy plugin ([src/plugins/local.ts])

    A shallow embedding of [getFullDirPathFromTarget],
    [LocalPlugin.deployFile] and [LocalPlugin.deployWorkspace], together
    with the parts of [contracts.ts] they use, and the properties of the
    deployment contract they are expected to meet.

    How the JavaScript is read.

    - The plugin is callback driven.  A call such as [FS.exists(p, cb)]
      registers [cb] and returns; [cb] runs later, in a turn of its own.
      A run of the plugin is therefore a list of turns ([Run]): the first
      turn is the synchronous call itself, the following ones are the
      callbacks, in the order in which they fire.  Every turn records the
      events it produced and whether it returned or threw.  An exception
      of the first turn reaches the caller of the method; an exception of
      a later turn reaches the event loop.
    - The file system, the cancellation flag, the workspace root and the
      path-mapping helper are the environment of a run ([World]).  Each
      asynchronous file-system operation answers its callback exactly
      once (the Node.js convention).  [FS.exists], [FSExtra.mkdirs] and
      [FSExtra.emptyDir] answer in a later turn; [FSExtra.copy] answers
      in a later turn, or inside the call itself, within the [try] block
      of the source, or throws.
    - Handlers supplied by the caller ([onBeforeDeploy], [onCompleted])
      are functions that return or throw.
    - Node's [path] module is modelled in its POSIX flavour. *)

From Stdlib Require Import String Ascii List Bool Arith Lia.
Import ListNotations.

Local Open Scope string_scope.
Local Open Scope list_scope.

(* ===================================================================== *)
(** ** Node's [path] module (POSIX) *)
(* ===================================================================== *)

Module Path.

Definition sep : ascii := "/"%char.

(** [path.isAbsolute]: a POSIX path is absolute when it starts with '/'. *)
Definition isAbsolute (p : string) : bool :=
  match p with
  | String c _ => Ascii.eqb c sep
  | EmptyString => false
  end.

(** [p.split('/')]: the segments between separators; never empty. *)
Fixpoint split (p : string) : list string :=
  match p with
  | EmptyString => [EmptyString]
  | String c rest =>
      if Ascii.eqb c sep then EmptyString :: split rest
      else match split rest with
           | s :: ss => String c s :: ss
           | [] => [String c EmptyString]
           end
  end.

(** The segment walk of [normalize]: empty and "." segments vanish, ".."
    removes the segment before it, or is kept when there is none to
    remove and the path is relative.  [acc] is the result so far, last
    segment first. *)
Fixpoint normalizeArray (parts : list string) (allowAboveRoot : bool)
         (acc : list string) : list string :=
  match parts with
  | [] => rev acc
  | p :: ps =>
      if String.eqb p "" || String.eqb p "." then
        normalizeArray ps allowAboveRoot acc
      else if String.eqb p ".." then
        match acc with
        | a :: acc' =>
            if String.eqb a ".." then
              normalizeArray ps allowAboveRoot
                (if allowAboveRoot then ".." :: acc else acc)
            else normalizeArray ps allowAboveRoot acc'
        | [] =>
            normalizeArray ps allowAboveRoot
              (if allowAboveRoot then [".."] else [])
        end
      else normalizeArray ps allowAboveRoot (p :: acc)
  end.

(** Is the last character a separator? *)
Fixpoint endsWithSep (p : string) : bool :=
  match p with
  | EmptyString => false
  | String c EmptyString => Ascii.eqb c sep
  | String _ rest => endsWithSep rest
  end.

(** [path.normalize]; trailing separators are preserved. *)
Definition normalize (p : string) : string :=
  if String.eqb p "" then "."
  else
    let abs := isAbsolute p in
    let trailing := endsWithSep p in
    let body := String.concat "/" (normalizeArray (split p) (negb abs) []) in
    if String.eqb body "" then
      if abs then "/" else if trailing then "./" else "."
    else
      (if abs then "/" else "") ++ body ++ (if trailing then "/" else "").

(** [path.join]: the non-empty arguments, separated by '/', normalized. *)
Definition join (args : list string) : string :=
  match filter (fun a => negb (String.eqb a "")) args with
  | [] => "."
  | parts => normalize (String.concat "/" parts)
  end.

(** The backward scan of [path.dirname] over the characters after the
    first one, last character first: trailing separators and the base
    name are skipped, and what precedes the separator in front of the
    base name is returned (still reversed). *)
Fixpoint dirnameScan (rev_tail : list ascii) (matchedSlash : bool)
  : option (list ascii) :=
  match rev_tail with
  | [] => None
  | c :: rest =>
      if Ascii.eqb c sep then
        if matchedSlash then dirnameScan rest true else Some rest
      else dirnameScan rest false
  end.

(** [path.dirname]. *)
Definition dirname (p : string) : string :=
  match p with
  | EmptyString => "."
  | String c0 tail =>
      let hasRoot := Ascii.eqb c0 sep in
      match dirnameScan (rev (list_ascii_of_string tail)) true with
      | None => if hasRoot then "/" else "."
      | Some [] => if hasRoot then "//" else String c0 EmptyString
      | Some kept => String c0 (string_of_list_ascii (rev kept))
      end
  end.

End Path.

(* ===================================================================== *)
(** ** Data of [contracts.ts] *)
(* ===================================================================== *)

(** JavaScript error objects, as thrown or handed to a callback. *)
Inductive Exn : Type :=
| Error (message : string)
| TypeError (message : string).

(** ['' + err] for an error object: the name alone when the message is
    empty, the name, ": " and the message otherwise. *)
Definition exn_to_string (e : Exn) : string :=
  match e with
  | Error m => if String.eqb m "" then "Error" else "Error: " ++ m
  | TypeError m =>
      if String.eqb m "" then "TypeError" else "TypeError: " ++ m
  end.

(** How a call ends. *)
Inductive Outcome : Type :=
| Returned
| Threw (e : Exn).

(** [AfterDeployedOperation]. *)
Record AfterDeployedOperation : Type := {
  op_type : option string
}.

(** [DeployTargetMapping]. *)
Record DeployTargetMapping : Type := {
  map_source : string;
  map_target : string
}.

(** [DeployTargetLocal], the fields of [DeployTarget] included.  An
    optional field is an [option]; [None] is JavaScript's [undefined]. *)
Record DeployTargetLocal : Type := {
  deployed : list AfterDeployedOperation;
  description : option string;
  mappings : list DeployTargetMapping;
  name : option string;
  sortOrder : nat;
  type : option string;
  dir : option string;
  empty : option bool
}.

(** The [error] member of a completion event: [completed()] leaves it
    [undefined], [completed(null, true)] sets it to [null], and
    [completed(err)] to the error. *)
Inductive ErrorArg : Type :=
| ErrUndefined
| ErrNull
| ErrValue (e : Exn).

(** [BeforeDeployFileEventArguments]. *)
Record BeforeDeployFileEventArguments : Type := {
  bd_destination : string;
  bd_file : string;
  bd_target : DeployTargetLocal
}.

(** [FileDeployedCompletedEventArguments]. *)
Record FileDeployedCompletedEventArguments : Type := {
  fc_canceled : option bool;
  fc_error : ErrorArg;
  fc_file : string;
  fc_target : DeployTargetLocal
}.

(** [WorkspaceDeployedEventArguments]. *)
Record WorkspaceDeployedEventArguments : Type := {
  wc_canceled : option bool;
  wc_error : ErrorArg;
  wc_target : DeployTargetLocal
}.

(** Event handlers: called with the event arguments, they return or throw. *)
Definition BeforeDeployFileEventHandler : Type :=
  BeforeDeployFileEventArguments -> Outcome.
Definition FileDeployedCompletedEventHandler : Type :=
  FileDeployedCompletedEventArguments -> Outcome.
Definition WorkspaceDeployedEventHandler : Type :=
  WorkspaceDeployedEventArguments -> Outcome.

(** [DeployFileOptions].  [baseDirectory] is read by [deployFile]
    ([opts.baseDirectory]) and handed to the path-mapping helper. *)
Record DeployFileOptions : Type := {
  onBeforeDeploy : option BeforeDeployFileEventHandler;
  onCompleted : option FileDeployedCompletedEventHandler;
  baseDirectory : option string
}.

(** [DeployWorkspaceOptions]. *)
Record DeployWorkspaceOptions : Type := {
  onBeforeDeployFile : option BeforeDeployFileEventHandler;
  ws_onCompleted : option WorkspaceDeployedEventHandler;
  onFileCompleted : option FileDeployedCompletedEventHandler
}.

(** The empty options object [{}]. *)
Definition empty_options : DeployFileOptions :=
  {| onBeforeDeploy := None; onCompleted := None; baseDirectory := None |}.

(** [if (!opts) { opts = {}; }]: the options [deployFile] works with. *)
Definition options_or_empty (opts : option DeployFileOptions)
  : DeployFileOptions :=
  match opts with
  | Some o => o
  | None => empty_options
  end.

(* ===================================================================== *)
(** ** Events, turns and runs *)
(* ===================================================================== *)

(** What a run does that can be observed from outside the plugin. *)
Inductive Event : Type :=
| EvExists (path : string)                       (* FS.exists(path, cb) *)
| EvMkdirs (path : string)                       (* FSExtra.mkdirs(path, cb) *)
| EvEmptyDir (path : string)                     (* FSExtra.emptyDir(path, cb) *)
| EvCopy (src dst : string)                      (* FSExtra.copy(src, dst, .., cb) *)
| EvBeforeDeploy (a : BeforeDeployFileEventArguments)
| EvFileCompleted (a : FileDeployedCompletedEventArguments)
| EvWorkspaceCompleted (a : WorkspaceDeployedEventArguments)
| EvAppend (text : string)                       (* outputChannel().append *)
| EvAppendLine (text : string)                   (* outputChannel().appendLine *)
| EvSuperDeployWorkspace (files : list string) (t : DeployTargetLocal)
                         (opts : option DeployWorkspaceOptions).

(** One turn of the event loop. *)
Record Turn : Type := {
  events : list Event;
  outcome : Outcome
}.

(** A run: the synchronous call first, then the callbacks as they fire. *)
Definition Run : Type := list Turn.

(** All events of a run, in order. *)
Definition trace (r : Run) : list Event := concat (map events r).

(** The outcome of the synchronous call, which is what the caller sees. *)
Definition sync_outcome (r : Run) : Outcome :=
  match r with
  | t :: _ => outcome t
  | [] => Returned
  end.

(** Code within one turn: the events so far, and a value or an exception. *)
Definition M (A : Type) : Type := (list Event * (A + Exn))%type.

Definition ret {A} (a : A) : M A := ([], inl a).

Definition raise {A} (e : Exn) : M A := ([], inr e).

Definition bind {A B} (m : M A) (k : A -> M B) : M B :=
  match m with
  | (evs, inl a) => let (evs', r) := k a in (evs ++ evs', r)
  | (evs, inr e) => (evs, inr e)
  end.

(** [try { m } catch (e) { h e }]. *)
Definition try_catch {A} (m : M A) (h : Exn -> M A) : M A :=
  match m with
  | (evs, inr e) => let (evs', r) := h e in (evs ++ evs', r)
  | ok => ok
  end.

Definition emit (e : Event) : M unit := ([e], inl tt).

(** A call of a handler: the event is recorded, the handler returns or
    throws. *)
Definition invoke (e : Event) (result : Outcome) : M unit :=
  match result with
  | Returned => ([e], inl tt)
  | Threw x => ([e], inr x)
  end.

Declare Scope turn_scope.
Delimit Scope turn_scope with turn.
Notation "x <- m ;; k" := (bind m (fun x => k))
  (at level 61, m at next level, right associativity) : turn_scope.
Notation "m ;; k" := (bind m (fun _ => k))
  (at level 61, right associativity) : turn_scope.
Local Open Scope turn_scope.

(** A turn that schedules nothing. *)
Definition run_turn (m : M unit) : Run :=
  match m with
  | (evs, inl _) => [ {| events := evs; outcome := Returned |} ]
  | (evs, inr e) => [ {| events := evs; outcome := Threw e |} ]
  end.

(** A turn that ends by handing a callback to an asynchronous operation:
    the turn [m], then (when [m] did not throw) the turns of the callback. *)
Definition then_callback {A} (m : M A) (k : A -> Run) : Run :=
  match m with
  | (evs, inl a) => {| events := evs; outcome := Returned |} :: k a
  | (evs, inr e) => [ {| events := evs; outcome := Threw e |} ]
  end.

(** A turn whose last statement is a synchronous call of [callee]: the
    callee's first turn is the rest of the current one. *)
Definition then_call (m : M unit) (callee : Run) : Run :=
  match m with
  | (evs, inl _) =>
      match callee with
      | t :: ts => {| events := evs ++ events t; outcome := outcome t |} :: ts
      | [] => [ {| events := evs; outcome := Returned |} ]
      end
  | (evs, inr e) => [ {| events := evs; outcome := Threw e |} ]
  end.

(* ===================================================================== *)
(** ** The environment of a run *)
(* ===================================================================== *)

(** What [FSExtra.copy] does with a request.  It calls back later, in a
    turn of its own, once the file system has answered; it calls back
    before it returns when it refuses the request at once, as fs-extra
    does for a source and a destination that are the same file; or it
    throws. *)
Inductive CopyBehaviour : Type :=
| CopyThrows (e : Exn)                  (* throws, calls nothing back *)
| CopyCallsBack (err : option Exn)      (* calls back in a later turn *)
| CopyCallsBackNow (err : option Exn).  (* calls back inside the call *)

Record World : Type := {
  (** [vscode.workspace.rootPath] *)
  rootPath : string;
  (** [context.isCancelling()] *)
  isCancelling : bool;
  (** [deploy_helpers.toRelativeTargetPath(file, target, baseDirectory)];
      [None] is the result [false]. *)
  toRelativeTargetPath :
    string -> DeployTargetLocal -> option string -> option string;
  (** the answer [FS.exists] gives its callback *)
  fs_exists : string -> bool;
  (** the error, if any, [FSExtra.mkdirs] gives its callback *)
  fs_mkdirs : string -> option Exn;
  (** the error, if any, [FSExtra.emptyDir] gives its callback *)
  fs_emptyDir : string -> option Exn;
  fs_copy : string -> string -> CopyBehaviour
}.

(** Modelled from the spec: [deploy_helpers.toStringSafe], of the helpers
    module, which is not among the sources.  The spec has [target.dir]
    string-coerced and then defaulted when empty, so an absent value
    becomes the empty string and a string is returned as it is. *)
Definition toStringSafe (v : option string) : string :=
  match v with
  | Some s => s
  | None => ""
  end.

(** Modelled from the spec: [deploy_helpers.toBooleanSafe], of the helpers
    module, which is not among the sources: the flag when it is given, the
    default otherwise. *)
Definition toBooleanSafe (v : option bool) (defValue : bool) : bool :=
  match v with
  | Some b => b
  | None => defValue
  end.

(* ===================================================================== *)
(** ** [local.ts] *)
(* ===================================================================== *)

Section LocalPlugin.

Variable w : World.

(** [getFullDirPathFromTarget]. *)
Definition getFullDirPathFromTarget (t : DeployTargetLocal) : string :=
  let d := toStringSafe (dir t) in
  let d := if String.eqb d "" then "./" else d in
  if negb (Path.isAbsolute d) then Path.join [rootPath w; d] else d.

(** ** [LocalPlugin.deployFile] *)

Section DeployFile.

Variable file : string.
Variable t : DeployTargetLocal.
(** The options, after [if (!opts) { opts = {}; }]. *)
Variable opts : DeployFileOptions.

(** The closure [completed]. *)
Definition completed (err : ErrorArg) (canceled : option bool) : M unit :=
  match onCompleted opts with
  | Some handler =>
      let a := {| fc_canceled := canceled; fc_error := err;
                  fc_file := file; fc_target := t |} in
      invoke (EvFileCompleted a) (handler a)
  | None => ret tt
  end.

(** The body of the callback handed to [FSExtra.copy]. *)
Definition copy_callback_body (err : option Exn) : M unit :=
  match err with
  | Some e => completed (ErrValue e) None
  | None => completed ErrUndefined None
  end.

(** The callback handed to [FSExtra.copy], run in a turn of its own. *)
Definition copy_callback (err : option Exn) : Run :=
  run_turn (copy_callback_body err).

(** The closure [deployFile] inside the method: the [try] block calls
    the "before deploy" handler and hands the file to [FSExtra.copy];
    what either of them throws is caught and completes the file.  A
    callback that [FSExtra.copy] runs before it returns runs inside the
    [try] block too, so what the callback throws is caught as well. *)
Definition deployFile_closure (targetFile targetDirectory : string) : Run :=
  then_callback
    (try_catch
       ((match onBeforeDeploy opts with
         | Some handler =>
             let a := {| bd_destination := targetDirectory;
                         bd_file := file; bd_target := t |} in
             invoke (EvBeforeDeploy a) (handler a)
         | None => ret tt
         end) ;;
        emit (EvCopy file targetFile) ;;
        match fs_copy w file targetFile with
        | CopyThrows e => raise e
        | CopyCallsBack err => ret (Some err)
        | CopyCallsBackNow err => copy_callback_body err ;; ret None
        end)
       (fun e => completed (ErrValue e) None ;; ret None))
    (fun scheduled =>
       match scheduled with
       | Some err => copy_callback err
       | None => []
       end).

(** The callback handed to [FSExtra.mkdirs]. *)
Definition mkdirs_callback (targetFile targetDirectory : string)
           (err : option Exn) : Run :=
  match err with
  | Some e => run_turn (completed (ErrValue e) None)
  | None => deployFile_closure targetFile targetDirectory
  end.

(** The callback handed to [FS.exists]. *)
Definition exists_callback (targetFile targetDirectory : string)
           (exists_ : bool) : Run :=
  if exists_ then deployFile_closure targetFile targetDirectory
  else
    then_callback (emit (EvMkdirs targetDirectory))
      (fun _ => mkdirs_callback targetFile targetDirectory
                  (fs_mkdirs w targetDirectory)).

(** The body of the method, from [let dir = ...] on. *)
Definition deployFile_body : Run :=
  let d := getFullDirPathFromTarget t in
  then_callback
    (if isCancelling w then
       completed ErrNull (Some true) ;; ret None
     else
       match toRelativeTargetPath w file t (baseDirectory opts) with
       | None =>
           completed
             (ErrValue (Error ("Could not get relative path for '"
                                 ++ file ++ "'!")))
             None ;;
           ret None
       | Some relativeTargetFilePath =>
           let targetFile := Path.join [d; relativeTargetFilePath] in
           let targetDirectory := Path.dirname targetFile in
           emit (EvExists targetDirectory) ;;
           ret (Some (targetFile, targetDirectory))
       end)
    (fun pending =>
       match pending with
       | Some (targetFile, targetDirectory) =>
           exists_callback targetFile targetDirectory
             (fs_exists w targetDirectory)
       | None => []
       end).

End DeployFile.

(** [LocalPlugin.deployFile(file, target, opts?)]. *)
Definition deployFile (file : string) (t : DeployTargetLocal)
           (opts : option DeployFileOptions) : Run :=
  deployFile_body file t (options_or_empty opts).

(** ** [LocalPlugin.deployWorkspace] *)

Section DeployWorkspace.

(** [super.deployWorkspace], of [DeployPluginBase] in the objects
    module, which is not among the sources: any run at all. *)
Variable super_deployWorkspace :
  list string -> DeployTargetLocal -> option DeployWorkspaceOptions -> Run.

Variable files : list string.
Variable t : DeployTargetLocal.
Variable opts : option DeployWorkspaceOptions.

(** What reading [opts.onCompleted] throws when [opts] is [undefined]. *)
Definition undefined_opts : Exn :=
  TypeError "Cannot read property 'onCompleted' of undefined".

(** The closure [completed] of [deployWorkspace]; [opts] is used as
    it was passed. *)
Definition ws_completed (err : ErrorArg) (canceled : option bool)
  : M unit :=
  match opts with
  | None => raise undefined_opts
  | Some o =>
      match ws_onCompleted o with
      | Some handler =>
          let a := {| wc_canceled := canceled; wc_error := err;
                      wc_target := t |} in
          invoke (EvWorkspaceCompleted a) (handler a)
      | None => ret tt
      end
  end.

(** The destination root, as [deployWorkspace] computes it. *)
Definition workspaceTargetDir : string :=
  let targetDir := toStringSafe (dir t) in
  if negb (Path.isAbsolute targetDir)
  then Path.join [rootPath w; targetDir]
  else targetDir.

(** The closure [startDeploying]. *)
Definition startDeploying : Run :=
  then_call (emit (EvSuperDeployWorkspace files t opts))
            (super_deployWorkspace files t opts).

(** The callback handed to [FSExtra.emptyDir]. *)
Definition emptyDir_callback (err : option Exn) : Run :=
  match err with
  | Some e =>
      run_turn
        (emit (EvAppend ("[FAILED: " ++ exn_to_string e ++ "]")) ;;
         ws_completed (ErrValue e) None)
  | None => then_call (emit (EvAppendLine "[OK]")) startDeploying
  end.

(** [LocalPlugin.deployWorkspace(files, target, opts?)]. *)
Definition deployWorkspace : Run :=
  let targetDir := workspaceTargetDir in
  if isCancelling w then
    run_turn (ws_completed ErrNull (Some true))
  else
    let doEmptyDir := toBooleanSafe (empty t) false in
    if doEmptyDir then
      then_callback
        (emit (EvAppend ("Empty LOCAL target directory '"
                           ++ targetDir ++ "'... ")) ;;
         emit (EvEmptyDir targetDir))
        (fun _ => emptyDir_callback (fs_emptyDir w targetDir))
    else startDeploying.

End DeployWorkspace.

End LocalPlugin.

(** Modelled from the spec: [DeployPluginBase.deployWorkspace], of the
    objects module, which is not among the sources.  The default behaviour
    "sequences [deployFile] over [files]", in list order, each file with
    the per-file hooks of the workspace options, and then fires the
    workspace-level [onCompleted] once.  Omitted options are allowed
    ([opts?]) and stand for no hooks. *)
Definition base_deployWorkspace (w : World) (files : list string)
           (t : DeployTargetLocal) (opts : option DeployWorkspaceOptions)
  : Run :=
  let o := match opts with
           | Some o => o
           | None => {| onBeforeDeployFile := None; ws_onCompleted := None;
                        onFileCompleted := None |}
           end in
  let fileOpts := {| onBeforeDeploy := onBeforeDeployFile o;
                     onCompleted := onFileCompleted o;
                     baseDirectory := None |} in
  flat_map (fun f => deployFile w f t (Some fileOpts)) files
  ++ run_turn (ws_completed t (Some o) ErrUndefined None).

(** The local plugin as it is assembled: [deployWorkspace] on top of the
    base class. *)
Definition LocalPlugin_deployWorkspace (w : World) (files : list string)
           (t : DeployTargetLocal) (opts : option DeployWorkspaceOptions)
  : Run :=
  deployWorkspace w (base_deployWorkspace w) files t opts.

(* ===================================================================== *)
(** ** Sample data *)
(* ===================================================================== *)

Module Sample.

(** [s] without the prefix [p], when it has it. *)
Fixpoint strip_prefix (p s : string) : option string :=
  match p, s with
  | EmptyString, _ => Some s
  | String a p', String b s' =>
      if Ascii.eqb a b then strip_prefix p' s' else None
  | String _ _, EmptyString => None
  end.

(** A path-mapping helper for a target without mappings: the path of
    the file below the base directory ("proj" by default). *)
Definition relative_below (file : string) (_ : DeployTargetLocal)
           (base : option string) : option string :=
  strip_prefix (match base with Some b => b | None => "proj" end ++ "/")
               file.

Definition local_target (d : option string) (e : option bool)
  : DeployTargetLocal :=
  {| deployed := []; description := None; mappings := [];
     name := Some "staging"; sortOrder := 0; type := Some "local";
     dir := d; empty := e |}.

(** A world in which everything works and the directory is there. *)
Definition calm : World :=
  {| rootPath := "/ws"; isCancelling := false;
     toRelativeTargetPath := relative_below;
     fs_exists := fun _ => true;
     fs_mkdirs := fun _ => None;
     fs_emptyDir := fun _ => None;
     fs_copy := fun _ _ => CopyCallsBack None |}.

(** The same, with the cancellation flag raised. *)
Definition cancelling : World :=
  {| rootPath := "/ws"; isCancelling := true;
     toRelativeTargetPath := relative_below;
     fs_exists := fun _ => true;
     fs_mkdirs := fun _ => None;
     fs_emptyDir := fun _ => None;
     fs_copy := fun _ _ => CopyCallsBack None |}.

(** The directory is missing and cannot be created. *)
Definition no_directory : World :=
  {| rootPath := "/ws"; isCancelling := false;
     toRelativeTargetPath := relative_below;
     fs_exists := fun _ => false;
     fs_mkdirs := fun _ => Some (Error "EACCES");
     fs_emptyDir := fun _ => None;
     fs_copy := fun _ _ => CopyCallsBack None |}.

(** The directory is missing and gets created. *)
Definition fresh_directory : World :=
  {| rootPath := "/ws"; isCancelling := false;
     toRelativeTargetPath := relative_below;
     fs_exists := fun _ => false;
     fs_mkdirs := fun _ => None;
     fs_emptyDir := fun _ => None;
     fs_copy := fun _ _ => CopyCallsBack None |}.

(** The destination root cannot be emptied. *)
Definition no_emptying : World :=
  {| rootPath := "/ws"; isCancelling := false;
     toRelativeTargetPath := relative_below;
     fs_exists := fun _ => true;
     fs_mkdirs := fun _ => None;
     fs_emptyDir := fun _ => Some (Error "EBUSY");
     fs_copy := fun _ _ => CopyCallsBack None |}.

(** Handlers that only return. *)
Definition quiet_file_options : DeployFileOptions :=
  {| onBeforeDeploy := Some (fun _ => Returned);
     onCompleted := Some (fun _ => Returned);
     baseDirectory := None |}.

Definition quiet_workspace_options : DeployWorkspaceOptions :=
  {| onBeforeDeployFile := Some (fun _ => Returned);
     ws_onCompleted := Some (fun _ => Returned);
     onFileCompleted := Some (fun _ => Returned) |}.

End Sample.


(* ===================================================================== *)
(** ** Observing a run *)
(* ===================================================================== *)

Definition is_fs_operation (e : Event) : bool :=
  match e with
  | EvExists _ | EvMkdirs _ | EvEmptyDir _ | EvCopy _ _ => true
  | _ => false
  end.

Definition is_before_deploy (e : Event) : bool :=
  match e with
  | EvBeforeDeploy _ => true
  | _ => false
  end.

Definition is_copy (e : Event) : bool :=
  match e with
  | EvCopy _ _ => true
  | _ => false
  end.

Definition is_file_completed (e : Event) : bool :=
  match e with
  | EvFileCompleted _ => true
  | _ => false
  end.

Definition is_workspace_completed (e : Event) : bool :=
  match e with
  | EvWorkspaceCompleted _ => true
  | _ => false
  end.

Definition is_empty_dir (e : Event) : bool :=
  match e with
  | EvEmptyDir _ => true
  | _ => false
  end.

(** The start of the per-file deployments of a workspace. *)
Definition is_super_call (e : Event) : bool :=
  match e with
  | EvSuperDeployWorkspace _ _ _ => true
  | _ => false
  end.

(** The event by which directory [d] is known to be empty: it was
    emptied without error. *)
Definition emptied (w : World) (d : string) (e : Event) : bool :=
  match e with
  | EvEmptyDir p =>
      String.eqb p d && match fs_emptyDir w p with
                        | None => true
                        | Some _ => false
                        end
  | _ => false
  end.

(** The event by which directory [d] is known to exist: the existence
    check answered yes, or the creation went through. *)
Definition ensures_directory (w : World) (d : string) (e : Event) : bool :=
  match e with
  | EvExists p => String.eqb p d && fs_exists w p
  | EvMkdirs p =>
      String.eqb p d && match fs_mkdirs w p with
                        | None => true
                        | Some _ => false
                        end
  | _ => false
  end.

(** In [tr], every event with [q] comes strictly after one with [p]. *)
Definition precedes (p q : Event -> bool) (tr : list Event) : Prop :=
  forall l1 e l2,
    tr = l1 ++ e :: l2 -> q e = true ->
    exists e', In e' l1 /\ p e' = true.

(** The same, decided by one pass over the trace; [seen] tells whether an
    event with [p] has been passed. *)
Fixpoint precedes_from (p q : Event -> bool) (seen : bool)
         (tr : list Event) : bool :=
  match tr with
  | [] => true
  | e :: rest =>
      (if q e then seen else true) && precedes_from p q (seen || p e) rest
  end.

(** In [tr], no event follows one with [q]. *)
Definition is_last (q : Event -> bool) (tr : list Event) : Prop :=
  forall l1 e l2, tr = l1 ++ e :: l2 -> q e = true -> l2 = [].

(** The same, decided by one pass over the trace. *)
Fixpoint last_only (q : Event -> bool) (tr : list Event) : bool :=
  match tr with
  | [] => true
  | e :: rest =>
      (negb (q e) || match rest with [] => true | _ :: _ => false end)
      && last_only q rest
  end.

(** The terminal outcomes of a file deployment. *)
Inductive Terminal : Type :=
| Succeeded
| Failed (e : Exn)
| Canceled.

(** The outcome a completion event reports.  [completed] is called in
    three ways only: [completed(null, true)], [completed(err)] and
    [completed()]; other combinations report nothing. *)
Definition terminal_of (canceled : option bool) (error : ErrorArg)
  : option Terminal :=
  match canceled, error with
  | Some true, ErrNull => Some Canceled
  | None, ErrValue e => Some (Failed e)
  | None, ErrUndefined => Some Succeeded
  | _, _ => None
  end.

(** The completion event of a file for a terminal outcome. *)
Definition completion_of (file : string) (t : DeployTargetLocal)
           (x : Terminal) : FileDeployedCompletedEventArguments :=
  match x with
  | Canceled => {| fc_canceled := Some true; fc_error := ErrNull;
                   fc_file := file; fc_target := t |}
  | Failed e => {| fc_canceled := None; fc_error := ErrValue e;
                   fc_file := file; fc_target := t |}
  | Succeeded => {| fc_canceled := None; fc_error := ErrUndefined;
                    fc_file := file; fc_target := t |}
  end.

(** What [FSExtra.copy] reports, as a terminal outcome. *)
Definition copy_terminal (c : CopyBehaviour) : Terminal :=
  match c with
  | CopyThrows e => Failed e
  | CopyCallsBack (Some e) => Failed e
  | CopyCallsBack None => Succeeded
  | CopyCallsBackNow (Some e) => Failed e
  | CopyCallsBackNow None => Succeeded
  end.

(** The per-file state machine as the specification words it:
    Idle -> CheckCancel -> (Canceled | ResolvePath);
    ResolvePath -> (MappingFailed | EnsureDirectory);
    EnsureDirectory -> (DirectoryError | Write);
    Write -> (WriteError | Completed).
    The function gives the terminal state the machine reaches. *)
Definition state_machine_terminal (w : World) (file : string)
           (t : DeployTargetLocal) (o : DeployFileOptions) : Terminal :=
  if isCancelling w then Canceled
  else
    match toRelativeTargetPath w file t (baseDirectory o) with
    | None =>
        Failed (Error ("Could not get relative path for '" ++ file ++ "'!"))
    | Some rel =>
        let targetFile := Path.join [getFullDirPathFromTarget w t; rel] in
        let targetDirectory := Path.dirname targetFile in
        let created :=
          if fs_exists w targetDirectory then None
          else fs_mkdirs w targetDirectory in
        match created with
        | Some e => Failed e
        | None =>
            let announced :=
              match onBeforeDeploy o with
              | Some handler =>
                  handler {| bd_destination := targetDirectory;
                             bd_file := file; bd_target := t |}
              | None => Returned
              end in
            match announced with
            | Threw e => Failed e
            | Returned => copy_terminal (fs_copy w file targetFile)
            end
        end
    end.

(** The destination root as the specification words it: [target.dir],
    "./" when absent or empty, below the workspace root when not
    absolute. *)
Definition spec_root (w : World) (t : DeployTargetLocal) : string :=
  let root := match dir t with
              | None => "./"
              | Some d => if String.eqb d "" then "./" else d
              end in
  if Path.isAbsolute root then root else Path.join [rootPath w; root].

(* ===================================================================== *)
(** ** Further observers *)
(* ===================================================================== *)

Definition is_exists (e : Event) : bool :=
  match e with
  | EvExists _ => true
  | _ => false
  end.

Definition is_mkdirs (e : Event) : bool :=
  match e with
  | EvMkdirs _ => true
  | _ => false
  end.

(** What an event of [deployFile] may be, for the file [file], the
    target [t], the destination file [targetFile] and its directory
    [targetDirectory]: the existence check and the creation of that
    directory (the latter only when the directory is absent), the
    announcement of that directory, the copy of [file] to [targetFile],
    and the completion of [file]; nothing else. *)
Definition file_event_ok (w : World) (file : string) (t : DeployTargetLocal)
           (targetFile targetDirectory : string) (e : Event) : Prop :=
  match e with
  | EvExists p => p = targetDirectory
  | EvMkdirs p => p = targetDirectory /\ fs_exists w p = false
  | EvBeforeDeploy a =>
      a = {| bd_destination := targetDirectory; bd_file := file;
             bd_target := t |}
  | EvCopy src dst => src = file /\ dst = targetFile
  | EvFileCompleted a => fc_file a = file /\ fc_target a = t
  | _ => False
  end.

(** The paths an event hands to the file system as a destination. *)
Definition destination_absolute (e : Event) : bool :=
  match e with
  | EvExists p | EvMkdirs p | EvEmptyDir p => Path.isAbsolute p
  | EvCopy _ dst => Path.isAbsolute dst
  | _ => true
  end.


(** [FSExtra.copy] does not run its callback inside the call into an
    [onCompleted] handler that throws: whenever it answers the copy of
    [file] inside the call, the handler returns on that answer. *)
Definition no_rethrow (w : World) (file : string) (t : DeployTargetLocal)
           (o : DeployFileOptions) : Prop :=
  forall rel err handler,
    toRelativeTargetPath w file t (baseDirectory o) = Some rel ->
    fs_copy w file (Path.join [getFullDirPathFromTarget w t; rel])
    = CopyCallsBackNow err ->
    onCompleted o = Some handler ->
    handler (completion_of file t (copy_terminal (CopyCallsBackNow err)))
    = Returned.

(** The target [t] with [dir] set to [d]. *)
Definition with_dir (t : DeployTargetLocal) (d : option string)
  : DeployTargetLocal :=
  {| deployed := deployed t; description := description t;
     mappings := mappings t; name := name t; sortOrder := sortOrder t;
     type := type t; dir := d; empty := empty t |}.

Module Hooks.

(** A "before deploy" handler that refuses every file. *)
Definition refusing_file_options : DeployFileOptions :=
  {| onBeforeDeploy := Some (fun _ => Threw (Error "not now"));
     onCompleted := Some (fun _ => Returned);
     baseDirectory := None |}.

(** A completion handler that throws. *)
Definition failing_file_options : DeployFileOptions :=
  {| onBeforeDeploy := None;
     onCompleted := Some (fun _ => Threw (Error "handler failed"));
     baseDirectory := None |}.

(** A workspace opened at "/ws": paths are mapped relative to the
    workspace root, and [FSExtra.copy] refuses at once, inside the call,
    to copy a file onto itself. *)
Definition same_place : World :=
  {| rootPath := "/ws"; isCancelling := false;
     toRelativeTargetPath :=
       fun file _ _ => Sample.strip_prefix "/ws/" file;
     fs_exists := fun _ => true;
     fs_mkdirs := fun _ => None;
     fs_emptyDir := fun _ => None;
     fs_copy :=
       fun src dst =>
         if String.eqb src dst
         then CopyCallsBackNow
                (Some (Error "Source and destination must not be the same."))
         else CopyCallsBack None |}.

(** Workspace options without any hook. *)
Definition no_workspace_hooks : DeployWorkspaceOptions :=
  {| onBeforeDeployFile := None; ws_onCompleted := None;
     onFileCompleted := None |}.

(** A workspace completion handler that throws. *)
Definition failing_workspace_options : DeployWorkspaceOptions :=
  {| onBeforeDeployFile := None;
     ws_onCompleted := Some (fun _ => Threw (Error "handler failed"));
     onFileCompleted := None |}.

End Hooks.

(* ===================================================================== *)
(** ** Sample runs *)
(* ===================================================================== *)

Example path_join_root_dot : Path.join ["/ws"; "./"] = "/ws/".
Proof. reflexivity. Qed.

Example path_join_root_empty : Path.join ["/ws"; ""] = "/ws".
Proof. reflexivity. Qed.

Example path_join_updir : Path.join ["/ws/a"; "../b/./c.txt"] = "/ws/b/c.txt".
Proof. reflexivity. Qed.

Example path_join_relative : Path.join ["a"; "../../b"] = "../b".
Proof. reflexivity. Qed.

Example path_dirname_file : Path.dirname "/tmp/dest/readme.md" = "/tmp/dest".
Proof. reflexivity. Qed.

Example path_dirname_top : Path.dirname "/readme.md" = "/".
Proof. reflexivity. Qed.

Example path_dirname_bare : Path.dirname "readme.md" = ".".
Proof. reflexivity. Qed.

Example deployFile_calm :
  trace (deployFile Sample.calm "proj/readme.md"
           (Sample.local_target (Some "/tmp/dest") None)
           (Some Sample.quiet_file_options))
  = let t := Sample.local_target (Some "/tmp/dest") None in
    [ EvExists "/tmp/dest";
      EvBeforeDeploy {| bd_destination := "/tmp/dest";
                        bd_file := "proj/readme.md"; bd_target := t |};
      EvCopy "proj/readme.md" "/tmp/dest/readme.md";
      EvFileCompleted {| fc_canceled := None; fc_error := ErrUndefined;
                         fc_file := "proj/readme.md"; fc_target := t |} ].
Proof. reflexivity. Qed.

Example deployFile_outside_base :
  deployFile Sample.calm "elsewhere/readme.md"
    (Sample.local_target None None) (Some Sample.quiet_file_options)
  = let t := Sample.local_target None None in
    [ {| events :=
           [ EvFileCompleted
               {| fc_canceled := None;
                  fc_error := ErrValue (Error
                    "Could not get relative path for 'elsewhere/readme.md'!");
                  fc_file := "elsewhere/readme.md"; fc_target := t |} ];
         outcome := Returned |} ].
Proof. reflexivity. Qed.

Example deployWorkspace_calm :
  map (fun turn => List.length (events turn))
      (LocalPlugin_deployWorkspace Sample.calm
         ["proj/a.txt"; "proj/b.txt"]
         (Sample.local_target (Some "out") (Some true))
         (Some Sample.quiet_workspace_options))
  = [2; 3; 2; 1; 1; 2; 1; 1].
Proof. reflexivity. Qed.

(* ===================================================================== *)
(** ** Properties of [deployFile] *)
(* ===================================================================== *)

(** Case analysis on whatever the goal still matches on. *)
Ltac split_cases :=
  repeat match goal with
         | |- context [match ?x with _ => _ end] =>
             lazymatch x with
             | context [match _ with _ => _ end] => fail
             | _ => destruct x eqn:?
             end
         end.

Ltac unfold_plugin :=
  unfold deployFile, deployFile_body, exists_callback, mkdirs_callback,
    deployFile_closure, copy_callback, copy_callback_body, completed,
    options_or_empty,
    then_callback, then_call, run_turn, try_catch, bind, invoke, emit, ret,
    raise, trace in *.

(** C1, on the code.  A file of the workspace root deployed to a target
    without [dir] is copied onto itself; fs-extra refuses that inside the
    copy call, so the callback runs within the [try] block.  When the
    [onCompleted] handler throws there, the [catch] block completes the
    file a second time: the handler is called twice, first with the
    error of the copy and then with what it threw itself, both within
    the turn of the existence check, and the second exception leaves
    that turn. *)
Theorem deployFile_completes_twice_on_itself :
  deployFile Hooks.same_place "/ws/readme.md"
    (Sample.local_target None None) (Some Hooks.failing_file_options)
  = let t := Sample.local_target None None in
    [ {| events := [EvExists "/ws"]; outcome := Returned |};
      {| events :=
           [ EvCopy "/ws/readme.md" "/ws/readme.md";
             EvFileCompleted
               {| fc_canceled := None;
                  fc_error :=
                    ErrValue
                      (Error "Source and destination must not be the same.");
                  fc_file := "/ws/readme.md"; fc_target := t |};
             EvFileCompleted
               {| fc_canceled := None;
                  fc_error := ErrValue (Error "handler failed");
                  fc_file := "/ws/readme.md"; fc_target := t |} ];
         outcome := Threw (Error "handler failed") |} ].
Proof. reflexivity. Qed.

(** Without a handler the guard [if (opts.onCompleted)] makes completion
    a no-op: no completion event, and no turn of the run throws. *)
Lemma deployFile_without_handler_is_silent :
  forall (w : World) (file : string) (t : DeployTargetLocal)
         (opts : option DeployFileOptions),
    onCompleted (options_or_empty opts) = None ->
    filter is_file_completed (trace (deployFile w file t opts)) = [].
Proof.
  intros w file t opts Hn.
  unfold_plugin. rewrite Hn.
  split_cases; reflexivity.
Qed.

(** C2. When cancellation is requested at entry, [deployFile] is over
    within the synchronous call, without any file-system operation (no
    existence check, no directory creation, no copy) and without calling
    [onBeforeDeploy]; the [onCompleted] handler is called exactly once,
    with [canceled = true], and nothing else happens. *)
Theorem deployFile_cancelled_touches_nothing :
  forall (w : World) (file : string) (t : DeployTargetLocal)
         (opts : option DeployFileOptions),
    isCancelling w = true ->
    let r := deployFile w file t opts in
    List.length r = 1
    /\ (forall e, In e (trace r) ->
                  is_fs_operation e = false /\ is_before_deploy e = false)
    /\ (forall handler,
          onCompleted (options_or_empty opts) = Some handler ->
          let a := {| fc_canceled := Some true; fc_error := ErrNull;
                      fc_file := file; fc_target := t |} in
          r = [ {| events := [EvFileCompleted a];
                   outcome := handler a |} ]).
Proof.
  intros w file t opts Hc. cbv zeta.
  unfold_plugin. rewrite Hc.
  destruct (onCompleted _) as [h|] eqn:Hh.
  - destruct (h _) eqn:Hout; simpl.
    + repeat split; try (destruct H as [<-|[]]; reflexivity).
      intros handler Heq. injection Heq as <-. rewrite Hout. reflexivity.
    + repeat split; try (destruct H as [<-|[]]; reflexivity).
      intros handler Heq. injection Heq as <-. rewrite Hout. reflexivity.
  - simpl. repeat split; try contradiction. discriminate.
Qed.

Lemma deployFile_cancelled_touches_nothing_witness :
  isCancelling Sample.cancelling = true
  /\ deployFile Sample.cancelling "proj/readme.md"
       (Sample.local_target (Some "out") None)
       (Some Sample.quiet_file_options)
     = [ {| events :=
              [EvFileCompleted
                 {| fc_canceled := Some true; fc_error := ErrNull;
                    fc_file := "proj/readme.md";
                    fc_target := Sample.local_target (Some "out") None |}];
            outcome := Returned |} ].
Proof.
  split.
  - reflexivity.
  - destruct (deployFile_cancelled_touches_nothing Sample.cancelling
                "proj/readme.md" (Sample.local_target (Some "out") None)
                (Some Sample.quiet_file_options) eq_refl)
      as (_ & _ & Hcall).
    exact (Hcall (fun _ => Returned) eq_refl).
Defined.

(** C4. When the path-mapping helper answers [false], [deployFile] is
    over within the synchronous call, without any directory creation or
    write and without calling [onBeforeDeploy]; the [onCompleted] handler
    is called exactly once, with an error.  The failure is handed over,
    not thrown: the call ends the way the handler ends, so it returns
    when the handler returns (and when there is none). *)
Theorem deployFile_mapping_failure_is_reported :
  forall (w : World) (file : string) (t : DeployTargetLocal)
         (opts : option DeployFileOptions),
    isCancelling w = false ->
    toRelativeTargetPath w file t (baseDirectory (options_or_empty opts))
    = None ->
    let r := deployFile w file t opts in
    List.length r = 1
    /\ (forall e, In e (trace r) ->
                  is_fs_operation e = false /\ is_before_deploy e = false)
    /\ (onCompleted (options_or_empty opts) = None ->
        sync_outcome r = Returned)
    /\ (forall handler,
          onCompleted (options_or_empty opts) = Some handler ->
          exists err : Exn,
            let a := {| fc_canceled := None; fc_error := ErrValue err;
                        fc_file := file; fc_target := t |} in
            r = [ {| events := [EvFileCompleted a];
                     outcome := handler a |} ]
            /\ (handler a = Returned -> sync_outcome r = Returned)).
Proof.
  intros w file t opts Hc Hrel. cbv zeta.
  unfold_plugin. rewrite Hc, Hrel.
  destruct (onCompleted _) as [h|] eqn:Hh.
  - destruct (h _) eqn:Hout; simpl.
    + repeat split; try (destruct H as [<-|[]]; reflexivity);
        try discriminate.
      intros handler Heq. injection Heq as <-.
      eexists. rewrite Hout. split; reflexivity.
    + repeat split; try (destruct H as [<-|[]]; reflexivity);
        try discriminate.
      intros handler Heq. injection Heq as <-.
      eexists. rewrite Hout. split; [reflexivity | discriminate].
  - simpl. repeat split; try contradiction. discriminate.
Qed.

Lemma deployFile_mapping_failure_is_reported_witness :
  isCancelling Sample.calm = false
  /\ toRelativeTargetPath Sample.calm "elsewhere/readme.md"
       (Sample.local_target None None)
       (baseDirectory (options_or_empty (Some Sample.quiet_file_options)))
     = None
  /\ exists err : Exn,
      deployFile Sample.calm "elsewhere/readme.md"
        (Sample.local_target None None) (Some Sample.quiet_file_options)
      = [ {| events :=
               [EvFileCompleted
                  {| fc_canceled := None; fc_error := ErrValue err;
                     fc_file := "elsewhere/readme.md";
                     fc_target := Sample.local_target None None |}];
             outcome := Returned |} ].
Proof.
  split; [reflexivity | split; [reflexivity |]].
  destruct (deployFile_mapping_failure_is_reported Sample.calm
              "elsewhere/readme.md" (Sample.local_target None None)
              (Some Sample.quiet_file_options) eq_refl eq_refl)
    as (_ & _ & _ & Hcall).
  destruct (Hcall (fun _ => Returned) eq_refl) as (err & Hrun & _).
  exists err. exact Hrun.
Defined.

(** *** Order of the steps *)

Lemma precedes_from_sound :
  forall (p q : Event -> bool) (tr : list Event) (seen : bool),
    precedes_from p q seen tr = true ->
    forall l1 e l2,
      tr = l1 ++ e :: l2 -> q e = true ->
      seen = true \/ exists e', In e' l1 /\ p e' = true.
Proof.
  intros p q tr. induction tr as [| x rest IH]; intros seen Hscan l1 e l2 Heq Hq.
  - destruct l1; discriminate.
  - simpl in Hscan. apply andb_true_iff in Hscan as [Hhere Hrest].
    destruct l1 as [| y l1'].
    + simpl in Heq. injection Heq as -> ->.
      rewrite Hq in Hhere. left. exact Hhere.
    + simpl in Heq. injection Heq as -> ->.
      destruct (IH _ Hrest l1' e l2 eq_refl Hq) as [Hseen | (e' & Hin & Hp)].
      * apply orb_true_iff in Hseen as [Hseen | Hp].
        -- left. exact Hseen.
        -- right. exists y. split; [left; reflexivity | exact Hp].
      * right. exists e'. split; [right; exact Hin | exact Hp].
Qed.

Lemma precedes_by_scan :
  forall (p q : Event -> bool) (tr : list Event),
    precedes_from p q false tr = true -> precedes p q tr.
Proof.
  intros p q tr Hscan l1 e l2 Heq Hq.
  destruct (precedes_from_sound p q tr false Hscan l1 e l2 Heq Hq)
    as [Habs | Hex]; [discriminate | exact Hex].
Qed.

Lemma is_last_by_scan :
  forall (q : Event -> bool) (tr : list Event),
    last_only q tr = true -> is_last q tr.
Proof.
  intros q tr. induction tr as [| x rest IH]; intros Hscan l1 e l2 Heq Hq.
  - destruct l1; discriminate.
  - simpl in Hscan. apply andb_true_iff in Hscan as [Hhere Hrest].
    destruct l1 as [| y l1'].
    + simpl in Heq. injection Heq as -> ->.
      rewrite Hq in Hhere. simpl in Hhere.
      destruct l2; [reflexivity | discriminate].
    + simpl in Heq. injection Heq as -> ->.
      exact (IH Hrest l1' e l2 eq_refl Hq).
Qed.

Ltac by_scan :=
  first [ apply precedes_by_scan | apply is_last_by_scan ];
  simpl; rewrite ?String.eqb_refl;
  repeat match goal with
         | H : fs_exists _ _ = _ |- _ => rewrite H
         | H : fs_mkdirs _ _ = _ |- _ => rewrite H
         end;
  reflexivity.



Example deployFile_fresh_directory :
  trace (deployFile Sample.fresh_directory "proj/css/site.css"
           (Sample.local_target (Some "out") None)
           (Some Sample.quiet_file_options))
  = let t := Sample.local_target (Some "out") None in
    [ EvExists "/ws/out/css";
      EvMkdirs "/ws/out/css";
      EvBeforeDeploy {| bd_destination := "/ws/out/css";
                        bd_file := "proj/css/site.css"; bd_target := t |};
      EvCopy "proj/css/site.css" "/ws/out/css/site.css";
      EvFileCompleted {| fc_canceled := None; fc_error := ErrUndefined;
                         fc_file := "proj/css/site.css"; fc_target := t |} ].
Proof. reflexivity. Qed.

(** *** Where the file goes *)

(** [getFullDirPathFromTarget] computes the root the specification
    describes. *)
Lemma getFullDirPathFromTarget_spec_root :
  forall (w : World) (t : DeployTargetLocal),
    getFullDirPathFromTarget w t = spec_root w t.
Proof.
  intros w t. unfold getFullDirPathFromTarget, spec_root, toStringSafe.
  destruct (dir t) as [d |]; simpl.
  - destruct (String.eqb d ""); simpl.
    + reflexivity.
    + destruct (Path.isAbsolute d); reflexivity.
  - reflexivity.
Qed.

(** C6. Whenever [deployFile] copies, it copies the file it was given to
    the target's root directory joined with the file's relative path,
    the root being [target.dir], "./" when that is absent or empty, and
    taken below the workspace root when it is not absolute. *)
Theorem deployFile_destination :
  forall (w : World) (file : string) (t : DeployTargetLocal)
         (opts : option DeployFileOptions) (src dst : string),
    In (EvCopy src dst) (trace (deployFile w file t opts)) ->
    exists rel : string,
      toRelativeTargetPath w file t (baseDirectory (options_or_empty opts))
      = Some rel
      /\ src = file
      /\ dst = Path.join [spec_root w t; rel].
Proof.
  intros w file t opts src dst Hin.
  rewrite <- getFullDirPathFromTarget_spec_root.
  unfold_plugin.
  destruct (isCancelling w).
  - exfalso. revert Hin. split_cases; simpl; intuition discriminate.
  - destruct (toRelativeTargetPath w file t _) as [rel |] eqn:Hrel.
    + exists rel. split; [reflexivity |].
      revert Hin. split_cases; simpl; intros Hin;
        repeat (destruct Hin as [Hin | Hin]; try discriminate;
                try contradiction);
        injection Hin as <- <-; split; reflexivity.
    + exfalso. revert Hin. split_cases; simpl; intuition discriminate.
Qed.

Lemma deployFile_destination_witness :
  In (EvCopy "proj/readme.md" "/tmp/dest/readme.md")
     (trace (deployFile Sample.calm "proj/readme.md"
               (Sample.local_target (Some "/tmp/dest") None) None))
  /\ exists rel : string,
      toRelativeTargetPath Sample.calm "proj/readme.md"
        (Sample.local_target (Some "/tmp/dest") None)
        (baseDirectory (options_or_empty None))
      = Some rel
      /\ "proj/readme.md" = "proj/readme.md"
      /\ "/tmp/dest/readme.md"
         = Path.join [spec_root Sample.calm
                        (Sample.local_target (Some "/tmp/dest") None); rel].
Proof.
  assert (Hin : In (EvCopy "proj/readme.md" "/tmp/dest/readme.md")
                   (trace (deployFile Sample.calm "proj/readme.md"
                             (Sample.local_target (Some "/tmp/dest") None)
                             None))).
  { simpl. right. left. reflexivity. }
  split.
  - exact Hin.
  - exact (deployFile_destination Sample.calm "proj/readme.md"
             (Sample.local_target (Some "/tmp/dest") None) None
             "proj/readme.md" "/tmp/dest/readme.md" Hin).
Defined.

(** The fallback example of the specification: no mappings,
    [target.dir = "/tmp/dest"], file "proj/readme.md" relative to base
    "proj". *)
Example fallback_destination :
  filter is_copy
    (trace (deployFile Sample.calm "proj/readme.md"
              (Sample.local_target (Some "/tmp/dest") None)
              (Some {| onBeforeDeploy := None; onCompleted := None;
                       baseDirectory := Some "proj" |})))
  = [EvCopy "proj/readme.md" "/tmp/dest/readme.md"].
Proof. reflexivity. Qed.

(** Absent and relative roots. *)
Example root_defaults :
  spec_root Sample.calm (Sample.local_target None None) = "/ws/"
  /\ spec_root Sample.calm (Sample.local_target (Some "") None) = "/ws/"
  /\ spec_root Sample.calm (Sample.local_target (Some "out") None) = "/ws/out"
  /\ spec_root Sample.calm (Sample.local_target (Some "/srv/www") None)
     = "/srv/www".
Proof. repeat split. Qed.

(* ===================================================================== *)
(** ** Properties of [deployWorkspace] *)
(* ===================================================================== *)

Ltac unfold_workspace :=
  unfold deployWorkspace, emptyDir_callback, startDeploying, ws_completed,
    then_callback, then_call, run_turn, bind, invoke, emit, ret, raise,
    trace in *.

(** A turn of [then_call m callee] that throws is a turn of [callee],
    when [m] itself does not throw. *)
Lemma then_call_throws :
  forall (evs : list Event) (callee : Run) (e : Exn),
    In (Threw e) (map outcome (then_call (evs, inl tt) callee)) ->
    In (Threw e) (map outcome callee).
Proof.
  intros evs callee e. unfold then_call.
  destruct callee as [| turn rest]; simpl.
  - intros [Habs | []]. discriminate.
  - auto.
Qed.

(** Events that follow a prefix in which the scan has succeeded and a
    [p]-event has been seen are preceded by that event. *)
Lemma precedes_after_prefix :
  forall (p q : Event -> bool) (prefix rest : list Event),
    precedes_from p q false prefix = true ->
    (exists e', In e' prefix /\ p e' = true) ->
    precedes p q (prefix ++ rest).
Proof.
  intros p q prefix rest Hscan (e' & Hin & Hp) l1 e l2 Heq Hq.
  destruct (app_eq_app _ _ _ _ Heq) as (l & [[Hpre Hrest] | [Hl1 Hrest]]).
  - destruct l as [| x l'].
    + rewrite app_nil_r in Hpre. subst l1.
      exists e'. split; assumption.
    + simpl in Hrest. injection Hrest as -> _.
      exact (precedes_by_scan p q prefix Hscan l1 x l' Hpre Hq).
  - exists e'. split; [| exact Hp].
    rewrite Hl1. apply in_or_app. left. exact Hin.
Qed.

(** C7. When cancellation is requested at entry, [deployWorkspace] is
    over within the synchronous call: no directory is emptied, no file
    system operation is issued and no per-file deployment is started,
    whatever the base class would do; the workspace [onCompleted]
    handler is called once, with [canceled = true], and the call returns
    when the handler returns. *)
Theorem deployWorkspace_cancelled_starts_nothing :
  forall (w : World)
         (super : list string -> DeployTargetLocal ->
                  option DeployWorkspaceOptions -> Run)
         (files : list string) (t : DeployTargetLocal)
         (opts : option DeployWorkspaceOptions),
    isCancelling w = true ->
    let r := deployWorkspace w super files t opts in
    List.length r = 1
    /\ (forall e, In e (trace r) ->
                  is_empty_dir e = false /\ is_fs_operation e = false
                  /\ is_super_call e = false)
    /\ (forall o handler,
          opts = Some o -> ws_onCompleted o = Some handler ->
          let a := {| wc_canceled := Some true; wc_error := ErrNull;
                      wc_target := t |} in
          r = [ {| events := [EvWorkspaceCompleted a];
                   outcome := handler a |} ]
          /\ (handler a = Returned -> sync_outcome r = Returned)).
Proof.
  intros w super files t opts Hc. cbv zeta.
  unfold_workspace. rewrite Hc.
  destruct opts as [o |]; [destruct (ws_onCompleted o) as [h |] eqn:Hh |].
  - destruct (h _) eqn:Hout; simpl;
      (split; [reflexivity |]);
      (split; [intros e0 [<- | []]; repeat split |]);
      intros o' handler Ho Hh'; injection Ho as <-;
      rewrite Hh in Hh'; injection Hh' as <-;
      rewrite Hout; split; [reflexivity | reflexivity | reflexivity
                           | discriminate].
  - simpl. split; [reflexivity |]. split; [intros e0 [] |].
    intros o' handler Ho Hh'. injection Ho as <-.
    rewrite Hh in Hh'. discriminate.
  - simpl. split; [reflexivity |]. split; [intros e0 [] |].
    intros o' handler Ho. discriminate.
Qed.

Lemma deployWorkspace_cancelled_starts_nothing_witness :
  isCancelling Sample.cancelling = true
  /\ LocalPlugin_deployWorkspace Sample.cancelling
       ["proj/a.txt"; "proj/b.txt"]
       (Sample.local_target (Some "out") (Some true))
       (Some Sample.quiet_workspace_options)
     = [ {| events :=
              [EvWorkspaceCompleted
                 {| wc_canceled := Some true; wc_error := ErrNull;
                    wc_target :=
                      Sample.local_target (Some "out") (Some true) |}];
            outcome := Returned |} ].
Proof.
  split; [reflexivity |].
  destruct (deployWorkspace_cancelled_starts_nothing Sample.cancelling
              (base_deployWorkspace Sample.cancelling)
              ["proj/a.txt"; "proj/b.txt"]
              (Sample.local_target (Some "out") (Some true))
              (Some Sample.quiet_workspace_options) eq_refl)
    as (_ & _ & Hcall).
  destruct (Hcall Sample.quiet_workspace_options (fun _ => Returned)
              eq_refl eq_refl) as (Hrun & _).
  exact Hrun.
Defined.

(** With [target.empty] set and no cancellation, a successful emptying is
    followed by the delegation to the base class, and everything the
    base class does comes after it. *)
Lemma deployWorkspace_trace_after_emptying :
  forall (w : World)
         (super : list string -> DeployTargetLocal ->
                  option DeployWorkspaceOptions -> Run)
         (files : list string) (t : DeployTargetLocal)
         (opts : option DeployWorkspaceOptions),
    empty t = Some true ->
    isCancelling w = false ->
    fs_emptyDir w (workspaceTargetDir w t) = None ->
    trace (deployWorkspace w super files t opts)
    = [ EvAppend ("Empty LOCAL target directory '"
                    ++ workspaceTargetDir w t ++ "'... ");
        EvEmptyDir (workspaceTargetDir w t);
        EvAppendLine "[OK]";
        EvSuperDeployWorkspace files t opts ]
      ++ trace (super files t opts).
Proof.
  intros w super files t opts He Hc Hempty.
  unfold deployWorkspace, emptyDir_callback, startDeploying.
  rewrite Hc, He, Hempty. simpl.
  destruct (super files t opts) as [| turn rest]; reflexivity.
Qed.

(** C3. With [target.empty = true], [deployWorkspace] starts the per-file
    deployments only after the destination root has been emptied without
    error: in every run, the delegation to the per-file deployments (and
    with it every file write) comes after the successful [emptyDir].
    When emptying fails, the run ends there: the workspace [onCompleted]
    handler is called with that error, no per-file deployment is started
    and the only file-system operation of the run is the [emptyDir]
    itself. *)
Theorem deployWorkspace_empties_first :
  forall (w : World)
         (super : list string -> DeployTargetLocal ->
                  option DeployWorkspaceOptions -> Run)
         (files : list string) (t : DeployTargetLocal)
         (opts : option DeployWorkspaceOptions),
    empty t = Some true ->
    let d := workspaceTargetDir w t in
    let r := deployWorkspace w super files t opts in
    precedes (emptied w d) is_super_call (trace r)
    /\ (isCancelling w = false -> fs_emptyDir w d = None ->
        exists prefix,
          trace r = prefix ++ EvSuperDeployWorkspace files t opts
                             :: trace (super files t opts)
          /\ In (EvEmptyDir d) prefix)
    /\ (forall err,
          isCancelling w = false -> fs_emptyDir w d = Some err ->
          (forall e, In e (trace r) ->
                     is_super_call e = false
                     /\ (is_fs_operation e = true -> e = EvEmptyDir d))
          /\ (forall o handler,
                opts = Some o -> ws_onCompleted o = Some handler ->
                let a := {| wc_canceled := None; wc_error := ErrValue err;
                            wc_target := t |} in
                r = [ {| events :=
                           [ EvAppend ("Empty LOCAL target directory '"
                                         ++ d ++ "'... ");
                             EvEmptyDir d ];
                         outcome := Returned |};
                      {| events :=
                           [ EvAppend ("[FAILED: " ++ exn_to_string err
                                                   ++ "]");
                             EvWorkspaceCompleted a ];
                         outcome := handler a |} ])).
Proof.
  intros w super files t opts He. cbv zeta.
  split; [| split].
  - (* order *)
    destruct (isCancelling w) eqn:Hc.
    + apply precedes_by_scan.
      unfold_workspace. rewrite Hc.
      split_cases; reflexivity.
    + destruct (fs_emptyDir w (workspaceTargetDir w t)) as [err |] eqn:Hempty.
      * apply precedes_by_scan.
        unfold_workspace. rewrite Hc, He, Hempty. simpl.
        split_cases; reflexivity.
      * rewrite (deployWorkspace_trace_after_emptying w super files t opts
                   He Hc Hempty).
        apply precedes_after_prefix.
        -- simpl. rewrite String.eqb_refl, Hempty. reflexivity.
        -- exists (EvEmptyDir (workspaceTargetDir w t)). split.
           ++ simpl. auto.
           ++ simpl. rewrite String.eqb_refl, Hempty. reflexivity.
  - (* emptying went through *)
    intros Hc Hempty.
    rewrite (deployWorkspace_trace_after_emptying w super files t opts
               He Hc Hempty).
    eexists [_; _; _]. split; [reflexivity |]. simpl. auto.
  - (* emptying failed *)
    intros err Hc Hempty. unfold_workspace. rewrite Hc, He, Hempty. simpl.
    split.
    + intros e Hin. revert Hin. split_cases; simpl; intros Hin;
        repeat (destruct Hin as [<- | Hin]; [split; [reflexivity | simpl; intros; try discriminate; reflexivity] |]);
        contradiction.
    + intros o handler -> Hh. rewrite Hh.
      destruct (handler _); reflexivity.
Qed.

Lemma deployWorkspace_empties_first_witness :
  empty (Sample.local_target (Some "out") (Some true)) = Some true
  /\ isCancelling Sample.no_emptying = false
  /\ fs_emptyDir Sample.no_emptying "/ws/out" = Some (Error "EBUSY")
  /\ precedes (emptied Sample.no_emptying "/ws/out") is_super_call
       (trace (LocalPlugin_deployWorkspace Sample.no_emptying
                 ["proj/a.txt"; "proj/b.txt"]
                 (Sample.local_target (Some "out") (Some true))
                 (Some Sample.quiet_workspace_options)))
  /\ LocalPlugin_deployWorkspace Sample.no_emptying
       ["proj/a.txt"; "proj/b.txt"]
       (Sample.local_target (Some "out") (Some true))
       (Some Sample.quiet_workspace_options)
     = [ {| events :=
              [ EvAppend "Empty LOCAL target directory '/ws/out'... ";
                EvEmptyDir "/ws/out" ];
            outcome := Returned |};
         {| events :=
              [ EvAppend "[FAILED: Error: EBUSY]";
                EvWorkspaceCompleted
                  {| wc_canceled := None;
                     wc_error := ErrValue (Error "EBUSY");
                     wc_target :=
                       Sample.local_target (Some "out") (Some true) |} ];
            outcome := Returned |} ].
Proof.
  repeat (split; [reflexivity |]).
  destruct (deployWorkspace_empties_first Sample.no_emptying
              (base_deployWorkspace Sample.no_emptying)
              ["proj/a.txt"; "proj/b.txt"]
              (Sample.local_target (Some "out") (Some true))
              (Some Sample.quiet_workspace_options) eq_refl)
    as (Horder & _ & Hfail).
  split; [exact Horder |].
  destruct (Hfail (Error "EBUSY") eq_refl eq_refl) as (_ & Hcall).
  exact (Hcall Sample.quiet_workspace_options (fun _ => Returned)
           eq_refl eq_refl).
Defined.

Example deployWorkspace_emptied_then_deployed :
  trace (LocalPlugin_deployWorkspace Sample.calm ["proj/a.txt"]
           (Sample.local_target (Some "out") (Some true))
           (Some Sample.quiet_workspace_options))
  = let t := Sample.local_target (Some "out") (Some true) in
    [ EvAppend "Empty LOCAL target directory '/ws/out'... ";
      EvEmptyDir "/ws/out";
      EvAppendLine "[OK]";
      EvSuperDeployWorkspace ["proj/a.txt"] t
        (Some Sample.quiet_workspace_options);
      EvExists "/ws/out";
      EvBeforeDeploy {| bd_destination := "/ws/out";
                        bd_file := "proj/a.txt"; bd_target := t |};
      EvCopy "proj/a.txt" "/ws/out/a.txt";
      EvFileCompleted {| fc_canceled := None; fc_error := ErrUndefined;
                         fc_file := "proj/a.txt"; fc_target := t |};
      EvWorkspaceCompleted {| wc_canceled := None; wc_error := ErrUndefined;
                              wc_target := t |} ].
Proof. reflexivity. Qed.

(** *** Omitted options *)

(** C9, as the code has it.  With [opts] omitted, [deployWorkspace]
    reads [opts.onCompleted] of [undefined] wherever its closure
    [completed] is called: at a cancellation at entry the [TypeError]
    goes to the caller; after a failed emptying it is thrown inside the
    [emptyDir] callback, when the call has long returned; on the
    delegation path [completed] is not called at all: the omitted
    options go to the base class as they are, nothing is thrown before,
    and a turn that throws is a turn of the base class.  [deployFile]
    puts [{}] in the place of omitted options, and none of its turns
    throws. *)
Theorem deployWorkspace_without_options :
  forall (w : World)
         (super : list string -> DeployTargetLocal ->
                  option DeployWorkspaceOptions -> Run)
         (files : list string) (t : DeployTargetLocal),
    let d := workspaceTargetDir w t in
    let r := deployWorkspace w super files t None in
    (isCancelling w = true ->
     r = [ {| events := []; outcome := Threw undefined_opts |} ])
    /\ (forall err,
          isCancelling w = false ->
          toBooleanSafe (empty t) false = true ->
          fs_emptyDir w d = Some err ->
          r = [ {| events :=
                     [ EvAppend ("Empty LOCAL target directory '"
                                   ++ d ++ "'... ");
                       EvEmptyDir d ];
                   outcome := Returned |};
                {| events :=
                     [ EvAppend ("[FAILED: " ++ exn_to_string err ++ "]") ];
                   outcome := Threw undefined_opts |} ])
    /\ (isCancelling w = false ->
        (toBooleanSafe (empty t) false = true -> fs_emptyDir w d = None) ->
        (exists prefix,
            trace r = prefix ++ EvSuperDeployWorkspace files t None
                               :: trace (super files t None)
            /\ forall e, In e prefix -> is_workspace_completed e = false)
        /\ (forall e, In (Threw e) (map outcome r) ->
                      In (Threw e) (map outcome (super files t None))))
    /\ (forall file,
          Forall (fun turn => outcome turn = Returned)
                 (deployFile w file t None)).
Proof.
  intros w super files t. cbv zeta.
  split; [| split; [| split]].
  - intros Hc. unfold_workspace. rewrite Hc. reflexivity.
  - intros err Hc He Hempty. unfold_workspace.
    rewrite Hc, He, Hempty. reflexivity.
  - intros Hc Hempty.
    unfold deployWorkspace, emptyDir_callback, startDeploying.
    rewrite Hc.
    destruct (toBooleanSafe (empty t) false) eqn:He.
    + rewrite (Hempty eq_refl). split.
      * eexists [_; _; _]. split.
        -- simpl. destruct (super files t None); reflexivity.
        -- simpl. intros e [<- | [<- | [<- | []]]]; reflexivity.
      * intros e Hin. simpl in Hin.
        destruct Hin as [Habs | Hin]; [discriminate |].
        apply then_call_throws in Hin.
        apply then_call_throws in Hin. exact Hin.
    + split.
      * exists []. split.
        -- simpl. destruct (super files t None); reflexivity.
        -- intros e [].
      * intros e Hin. apply then_call_throws in Hin. exact Hin.
  - intros file. unfold_plugin. simpl.
    split_cases; repeat constructor.
Qed.

Lemma deployWorkspace_without_options_witness :
  isCancelling Sample.cancelling = true
  /\ LocalPlugin_deployWorkspace Sample.cancelling ["proj/readme.md"]
       (Sample.local_target (Some "out") None) None
     = [ {| events := []; outcome := Threw undefined_opts |} ].
Proof.
  split; [reflexivity |].
  destruct (deployWorkspace_without_options Sample.cancelling
              (base_deployWorkspace Sample.cancelling) ["proj/readme.md"]
              (Sample.local_target (Some "out") None))
    as (Hcancel & _).
  exact (Hcancel eq_refl).
Defined.

(** C9 as stated does not hold on the delegation path, nor does the
    [TypeError] of a failed emptying reach the caller.  With options
    omitted, nothing to cancel and nothing to empty, the run of the
    plugin on top of the base class has no turn that throws; and when
    the emptying fails, the call has returned before the callback
    throws. *)
Lemma deployWorkspace_without_options_delegates :
  Forall (fun turn => outcome turn = Returned)
         (LocalPlugin_deployWorkspace Sample.calm ["proj/readme.md"]
            (Sample.local_target (Some "out") None) None)
  /\ filter is_super_call
       (trace (LocalPlugin_deployWorkspace Sample.calm ["proj/readme.md"]
                 (Sample.local_target (Some "out") None) None))
     = [ EvSuperDeployWorkspace ["proj/readme.md"]
           (Sample.local_target (Some "out") None) None ]
  /\ map outcome
       (LocalPlugin_deployWorkspace Sample.no_emptying ["proj/readme.md"]
          (Sample.local_target (Some "out") (Some true)) None)
     = [ Returned; Threw undefined_opts ].
Proof.
  split; [repeat constructor | split; reflexivity].
Qed.

(* ===================================================================== *)
(** ** The two computations of the destination root *)
(* ===================================================================== *)

Lemma split_not_nil : forall p : string, Path.split p <> [].
Proof.
  intros p. destruct p as [| c rest]; simpl.
  - discriminate.
  - destruct (Ascii.eqb c Path.sep); [discriminate |].
    destruct (Path.split rest); discriminate.
Qed.

Lemma split_app_sep :
  forall s r : string,
    Path.split (s ++ String Path.sep r) = Path.split s ++ Path.split r.
Proof.
  intros s r. induction s as [| c s' IH].
  - reflexivity.
  - cbn [append Path.split]. rewrite IH.
    destruct (Ascii.eqb c Path.sep).
    + reflexivity.
    + destruct (Path.split s') as [| x xs] eqn:Hs.
      * exfalso. exact (split_not_nil s' Hs).
      * reflexivity.
Qed.

Lemma normalizeArray_dot_tail :
  forall (parts : list string) (allowAboveRoot : bool) (acc : list string),
    Path.normalizeArray (parts ++ ["."; ""]) allowAboveRoot acc
    = Path.normalizeArray parts allowAboveRoot acc.
Proof.
  intros parts allowAboveRoot. induction parts as [| p ps IH]; intros acc.
  - reflexivity.
  - cbn [app Path.normalizeArray].
    destruct (String.eqb p "" || String.eqb p "."); [apply IH |].
    destruct (String.eqb p ".."); [| apply IH].
    destruct acc as [| a acc']; [apply IH |].
    destruct (String.eqb a ".."); apply IH.
Qed.

Lemma endsWithSep_app :
  forall s r : string,
    r <> "" -> Path.endsWithSep (s ++ r) = Path.endsWithSep r.
Proof.
  intros s r Hr. induction s as [| c s' IH].
  - reflexivity.
  - cbn [append Path.endsWithSep]. rewrite IH.
    destruct (s' ++ r)%string as [| c' rest] eqn:Happ; [| reflexivity].
    exfalso. destruct s'; [apply Hr; exact Happ | discriminate].
Qed.

Lemma append_empty_r : forall s : string, (s ++ "")%string = s.
Proof.
  induction s as [| c s' IH]; [reflexivity | simpl; rewrite IH; reflexivity].
Qed.

Lemma append_assoc :
  forall a b c : string, ((a ++ b) ++ c)%string = (a ++ (b ++ c))%string.
Proof.
  intros a b c. induction a as [| x a' IH];
    [reflexivity | simpl; rewrite IH; reflexivity].
Qed.

(** Joining "./" to a root gives the root joined with nothing, up to one
    trailing separator. *)
Lemma join_dot_slash :
  forall root : string,
    Path.join [root; "./"] = Path.join [root; ""]
    \/ Path.join [root; "./"] = (Path.join [root; ""] ++ "/")%string.
Proof.
  intros root. destruct root as [| c s].
  - right. reflexivity.
  - unfold Path.join. cbn [filter String.eqb negb String.concat].
    change (String c s ++ "/" ++ "./")%string
      with (String c (s ++ String Path.sep "./")%string).
    unfold Path.normalize. cbn [String.eqb Path.isAbsolute].
    change (String c (s ++ String Path.sep "./")%string)
      with (String c s ++ String Path.sep "./")%string.
    rewrite split_app_sep.
    change (Path.split "./") with ["."; ""].
    rewrite normalizeArray_dot_tail.
    replace (String c s ++ String Path.sep "./")%string
      with (String c s ++ "/./")%string by reflexivity.
    rewrite (endsWithSep_app (String c s) "/./") by discriminate.
    change (Path.endsWithSep "/./") with true.
    set (body := String.concat "/"
                   (Path.normalizeArray (Path.split (String c s))
                      (negb (Ascii.eqb c Path.sep)) [])).
    destruct (String.eqb body "").
    + destruct (Ascii.eqb c Path.sep); [left; reflexivity |].
      destruct (Path.endsWithSep (String c s));
        [left; reflexivity | right; reflexivity].
    + destruct (Path.endsWithSep (String c s)); [left; reflexivity |].
      right. rewrite append_empty_r. rewrite append_assoc. reflexivity.
Qed.

(** C10 as stated does not hold for a target without [dir]: below the
    workspace root "/ws", [deployWorkspace] computes "/ws" and
    [getFullDirPathFromTarget] "/ws/". *)
Lemma workspace_root_differs_without_dir :
  workspaceTargetDir Sample.calm (Sample.local_target None None) = "/ws"
  /\ getFullDirPathFromTarget Sample.calm (Sample.local_target None None)
     = "/ws/"
  /\ workspaceTargetDir Sample.calm (Sample.local_target None None)
     <> getFullDirPathFromTarget Sample.calm (Sample.local_target None None).
Proof.
  split; [reflexivity | split; [reflexivity | discriminate]].
Qed.

(** C10, as the code has it.  For a target whose [dir] is given and not
    empty, the destination root computed by [deployWorkspace] is the one
    computed by [getFullDirPathFromTarget].  For every target the two
    name the same directory: they are equal or differ by the one
    trailing separator that the "./" default brings. *)
Theorem workspace_root_agrees_with_file_root :
  forall (w : World) (t : DeployTargetLocal),
    (toStringSafe (dir t) <> "" ->
     workspaceTargetDir w t = getFullDirPathFromTarget w t)
    /\ (getFullDirPathFromTarget w t = workspaceTargetDir w t
        \/ getFullDirPathFromTarget w t
           = (workspaceTargetDir w t ++ "/")%string).
Proof.
  intros w t. unfold workspaceTargetDir, getFullDirPathFromTarget.
  destruct (String.eqb (toStringSafe (dir t)) "") eqn:Hd.
  - apply String.eqb_eq in Hd. rewrite Hd.
    split; [intros Habs; exfalso; apply Habs; reflexivity |].
    cbn [Path.isAbsolute negb]. apply join_dot_slash.
  - split; [reflexivity | left; reflexivity].
Qed.

Lemma workspace_root_agrees_with_file_root_witness :
  toStringSafe (dir (Sample.local_target (Some "out") None)) <> ""
  /\ workspaceTargetDir Sample.calm (Sample.local_target (Some "out") None)
     = getFullDirPathFromTarget Sample.calm
         (Sample.local_target (Some "out") None).
Proof.
  assert (Hdir : toStringSafe (dir (Sample.local_target (Some "out") None))
                 <> "") by discriminate.
  split; [exact Hdir |].
  exact (proj1 (workspace_root_agrees_with_file_root Sample.calm
                  (Sample.local_target (Some "out") None)) Hdir).
Defined.

(* ===================================================================== *)
(** ** Further properties of [deployFile] *)
(* ===================================================================== *)

(** Membership in a trace or a list of outcomes that is known to its last
    element, taken apart. *)
Ltac in_cases H :=
  simpl in H;
  repeat match type of H with
         | _ \/ _ => destruct H as [H | H]
         | False => contradiction
         end.

(** X1. The [try]/[catch] of [deployFile] keeps every exception of
    [onBeforeDeploy] and of the copy call inside: a turn of the run that
    throws, throws what the [onCompleted] handler threw when it was
    called for this file.  Without such a handler, or with one that
    returns, every turn returns. *)
Theorem deployFile_contains_exceptions :
  forall (w : World) (file : string) (t : DeployTargetLocal)
         (opts : option DeployFileOptions) (e : Exn),
    In (Threw e) (map outcome (deployFile w file t opts)) ->
    exists handler a,
      onCompleted (options_or_empty opts) = Some handler
      /\ handler a = Threw e
      /\ fc_file a = file /\ fc_target a = t.
Proof.
  intros w file t opts e Hin.
  unfold_plugin.
  destruct (onCompleted _) as [h |] eqn:Hh.
  - exists h. revert Hin.
    split_cases; intros Hin; in_cases Hin; try discriminate;
      injection Hin as <-;
      match goal with
      | H : h ?a = Threw _ |- _ => exists a; repeat split; exact H
      end.
  - exfalso. revert Hin.
    split_cases; intros Hin; in_cases Hin; discriminate.
Qed.

Lemma deployFile_contains_exceptions_witness :
  In (Threw (Error "handler failed"))
     (map outcome (deployFile Sample.calm "proj/readme.md"
                     (Sample.local_target (Some "out") None)
                     (Some Hooks.failing_file_options)))
  /\ exists handler a,
      onCompleted (options_or_empty (Some Hooks.failing_file_options))
      = Some handler
      /\ handler a = Threw (Error "handler failed")
      /\ fc_file a = "proj/readme.md"
      /\ fc_target a = Sample.local_target (Some "out") None.
Proof.
  assert (Hin : In (Threw (Error "handler failed"))
                   (map outcome
                      (deployFile Sample.calm "proj/readme.md"
                         (Sample.local_target (Some "out") None)
                         (Some Hooks.failing_file_options)))).
  { simpl. right. right. left. reflexivity. }
  split; [exact Hin |].
  exact (deployFile_contains_exceptions Sample.calm "proj/readme.md"
           (Sample.local_target (Some "out") None)
           (Some Hooks.failing_file_options) (Error "handler failed") Hin).
Defined.

(** X2. The call of [deployFile] returns before anything is written:
    its synchronous turn holds at most the existence check or the
    completion of an early exit, and no directory creation, no
    [onBeforeDeploy] call and no copy. *)
Theorem deployFile_call_writes_nothing :
  forall (w : World) (file : string) (t : DeployTargetLocal)
         (opts : option DeployFileOptions),
  exists turn later,
    deployFile w file t opts = turn :: later
    /\ List.length (events turn) <= 1
    /\ forall e, In e (events turn) ->
                 is_mkdirs e = false /\ is_before_deploy e = false
                 /\ is_copy e = false.
Proof.
  intros w file t opts. unfold_plugin.
  split_cases; eexists; eexists; (split; [reflexivity |]); simpl;
    (split; [lia |]); intros ev Hin; in_cases Hin; subst ev;
    repeat split.
Qed.

(** X3. In a run of [deployFile], whatever the options and the
    environment, there is at most one existence check, one directory
    creation, one [onBeforeDeploy] call and one copy, and there are at
    most two [onCompleted] calls.  Unless the copy runs its callback
    inside the call into an [onCompleted] handler that throws, there is
    at most one [onCompleted] call and nothing follows it. *)
Theorem deployFile_steps_at_most_once :
  forall (w : World) (file : string) (t : DeployTargetLocal)
         (opts : option DeployFileOptions),
    let tr := trace (deployFile w file t opts) in
    List.length (filter is_exists tr) <= 1
    /\ List.length (filter is_mkdirs tr) <= 1
    /\ List.length (filter is_before_deploy tr) <= 1
    /\ List.length (filter is_copy tr) <= 1
    /\ List.length (filter is_file_completed tr) <= 2
    /\ (no_rethrow w file t (options_or_empty opts) ->
        List.length (filter is_file_completed tr) <= 1
        /\ is_last is_file_completed tr).
Proof.
  intros w file t opts. cbv zeta. unfold_plugin.
  split_cases; simpl; do 5 (split; [lia |]);
    intros Hquiet;
    first
      [ split; [simpl; lia | apply is_last_by_scan; reflexivity]
      | exfalso;
        match goal with
        | Hrel : toRelativeTargetPath _ _ _ _ = Some ?r,
          Hcp : fs_copy _ _ _ = CopyCallsBackNow ?err,
          Hh : onCompleted _ = Some ?h |- _ =>
            pose proof (Hquiet r err h Hrel Hcp Hh) as Hret;
            cbn in Hret; congruence
        end ].
Qed.

Lemma deployFile_steps_at_most_once_witness :
  no_rethrow Sample.calm "proj/readme.md"
    (Sample.local_target (Some "out") None)
    (options_or_empty (Some Hooks.failing_file_options))
  /\ List.length
       (filter is_file_completed
          (trace (deployFile Sample.calm "proj/readme.md"
                    (Sample.local_target (Some "out") None)
                    (Some Hooks.failing_file_options)))) <= 1
  /\ is_last is_file_completed
       (trace (deployFile Sample.calm "proj/readme.md"
                 (Sample.local_target (Some "out") None)
                 (Some Hooks.failing_file_options))).
Proof.
  assert (Hquiet : no_rethrow Sample.calm "proj/readme.md"
                     (Sample.local_target (Some "out") None)
                     (options_or_empty (Some Hooks.failing_file_options))).
  { intros rel err handler _ Hcopy _. simpl in Hcopy. discriminate. }
  split; [exact Hquiet |].
  destruct (deployFile_steps_at_most_once Sample.calm "proj/readme.md"
              (Sample.local_target (Some "out") None)
              (Some Hooks.failing_file_options))
    as (_ & _ & _ & _ & _ & Honce).
  exact (Honce Hquiet).
Defined.

(** X13. Unless the copy runs its callback inside the call into an
    [onCompleted] handler that throws, a run of [deployFile] calls a
    supplied [onCompleted] handler exactly once, whatever else the
    environment does, and the call reports exactly one terminal outcome
    (success, error or cancellation): the terminal state of the per-file
    state machine. *)
Theorem deployFile_completes_once_unless_rethrown :
  forall (w : World) (file : string) (t : DeployTargetLocal)
         (opts : option DeployFileOptions)
         (handler : FileDeployedCompletedEventHandler),
    onCompleted (options_or_empty opts) = Some handler ->
    no_rethrow w file t (options_or_empty opts) ->
    exists x : Terminal,
      filter is_file_completed (trace (deployFile w file t opts))
      = [EvFileCompleted (completion_of file t x)]
      /\ terminal_of (fc_canceled (completion_of file t x))
                     (fc_error (completion_of file t x)) = Some x
      /\ x = state_machine_terminal w file t (options_or_empty opts).
Proof.
  intros w file t opts handler Hh Hquiet.
  eexists. split; [| split; [| reflexivity]].
  - unfold state_machine_terminal, copy_terminal. unfold_plugin.
    rewrite Hh.
    split_cases;
      first
        [ reflexivity
        | exfalso;
          match goal with
          | Hrel : toRelativeTargetPath _ _ _ _ = Some ?r,
            Hcp : fs_copy _ _ _ = CopyCallsBackNow ?err |- _ =>
              pose proof (Hquiet r err handler Hrel Hcp Hh) as Hret;
              cbn in Hret; congruence
          end ].
  - destruct (state_machine_terminal w file t _); reflexivity.
Qed.

Lemma deployFile_completes_once_unless_rethrown_witness :
  onCompleted (options_or_empty (Some Sample.quiet_file_options))
  = Some (fun _ => Returned)
  /\ no_rethrow Hooks.same_place "/ws/readme.md"
       (Sample.local_target None None)
       (options_or_empty (Some Sample.quiet_file_options))
  /\ filter is_file_completed
       (trace (deployFile Hooks.same_place "/ws/readme.md"
                 (Sample.local_target None None)
                 (Some Sample.quiet_file_options)))
     = [EvFileCompleted
          (completion_of "/ws/readme.md" (Sample.local_target None None)
             (Failed
                (Error "Source and destination must not be the same.")))].
Proof.
  assert (Hquiet : no_rethrow Hooks.same_place "/ws/readme.md"
                     (Sample.local_target None None)
                     (options_or_empty (Some Sample.quiet_file_options))).
  { intros rel err handler _ _ Hh. simpl in Hh.
    injection Hh as <-. reflexivity. }
  split; [reflexivity | split; [exact Hquiet |]].
  destruct (deployFile_completes_once_unless_rethrown Hooks.same_place
              "/ws/readme.md" (Sample.local_target None None)
              (Some Sample.quiet_file_options) (fun _ => Returned)
              eq_refl Hquiet) as (x & Honce & _ & Hx).
  rewrite Hx in Honce. exact Honce.
Defined.

(** X4. An [onBeforeDeploy] handler that throws keeps the file from
    being copied: no copy is issued, and an [onCompleted] handler is
    told the exception as the file's error. *)
Theorem onBeforeDeploy_exception_stops_copy :
  forall (w : World) (file : string) (t : DeployTargetLocal)
         (opts : option DeployFileOptions)
         (hb : BeforeDeployFileEventHandler)
         (a : BeforeDeployFileEventArguments) (e : Exn),
    onBeforeDeploy (options_or_empty opts) = Some hb ->
    In (EvBeforeDeploy a) (trace (deployFile w file t opts)) ->
    hb a = Threw e ->
    let tr := trace (deployFile w file t opts) in
    (forall ev, In ev tr -> is_copy ev = false)
    /\ (forall hc,
          onCompleted (options_or_empty opts) = Some hc ->
          filter is_file_completed tr
          = [EvFileCompleted (completion_of file t (Failed e))]).
Proof.
  intros w file t opts hb a e Hb Hin Hthrow. cbv zeta.
  unfold_plugin. rewrite Hb in *.
  revert Hin.
  split_cases; intros Hin; in_cases Hin; try discriminate;
    injection Hin as <-;
    match goal with
    | H1 : hb ?x = Returned, H2 : hb ?x = Threw _ |- _ =>
        rewrite H1 in H2; discriminate
    | H1 : hb ?x = Threw ?e1, H2 : hb ?x = Threw ?e2 |- _ =>
        rewrite H1 in H2; injection H2 as <-
    end;
    (split;
     [ intros ev Hev; in_cases Hev; subst ev; reflexivity
     | intros hc Hc; try discriminate; reflexivity ]).
Qed.

Lemma onBeforeDeploy_exception_stops_copy_witness :
  onBeforeDeploy (options_or_empty (Some Hooks.refusing_file_options))
  = Some (fun _ => Threw (Error "not now"))
  /\ In (EvBeforeDeploy
           {| bd_destination := "/ws/out"; bd_file := "proj/readme.md";
              bd_target := Sample.local_target (Some "out") None |})
        (trace (deployFile Sample.calm "proj/readme.md"
                  (Sample.local_target (Some "out") None)
                  (Some Hooks.refusing_file_options)))
  /\ filter is_file_completed
       (trace (deployFile Sample.calm "proj/readme.md"
                 (Sample.local_target (Some "out") None)
                 (Some Hooks.refusing_file_options)))
     = [EvFileCompleted
          (completion_of "proj/readme.md"
             (Sample.local_target (Some "out") None)
             (Failed (Error "not now")))].
Proof.
  assert (Hin : In (EvBeforeDeploy
                      {| bd_destination := "/ws/out";
                         bd_file := "proj/readme.md";
                         bd_target := Sample.local_target (Some "out") None |})
                   (trace (deployFile Sample.calm "proj/readme.md"
                             (Sample.local_target (Some "out") None)
                             (Some Hooks.refusing_file_options)))).
  { simpl. right. left. reflexivity. }
  split; [reflexivity | split; [exact Hin |]].
  destruct (onBeforeDeploy_exception_stops_copy Sample.calm "proj/readme.md"
              (Sample.local_target (Some "out") None)
              (Some Hooks.refusing_file_options)
              (fun _ => Threw (Error "not now")) _ (Error "not now")
              eq_refl Hin eq_refl) as (_ & Hreport).
  exact (Hreport (fun _ => Returned) eq_refl).
Defined.

(** X5. A run of [deployFile] is about one file and one directory: when
    the path mapping answers [rel], the existence check, the directory
    creation and the directory announced to [onBeforeDeploy] all concern
    the directory of the destination file, the directory is created only
    when the check found it absent, the copy takes the given file to the
    destination file, and the completion names the given file and
    target.  The run has no other event: it empties nothing and writes
    nothing to the output channel. *)
Theorem deployFile_concerns_one_destination :
  forall (w : World) (file : string) (t : DeployTargetLocal)
         (opts : option DeployFileOptions) (rel : string),
    toRelativeTargetPath w file t (baseDirectory (options_or_empty opts))
    = Some rel ->
    let targetFile := Path.join [getFullDirPathFromTarget w t; rel] in
    forall e,
      In e (trace (deployFile w file t opts)) ->
      file_event_ok w file t targetFile (Path.dirname targetFile) e.
Proof.
  intros w file t opts rel Hrel targetFile e Hin.
  unfold_plugin. rewrite Hrel in Hin. fold targetFile in Hin.
  revert Hin.
  destruct (fs_exists w (Path.dirname targetFile)) eqn:Hex;
    split_cases; intros Hin; in_cases Hin; subst e; simpl;
    repeat split; assumption.
Qed.

Lemma deployFile_concerns_one_destination_witness :
  toRelativeTargetPath Sample.fresh_directory "proj/css/site.css"
    (Sample.local_target (Some "out") None)
    (baseDirectory (options_or_empty None))
  = Some "css/site.css"
  /\ In (EvMkdirs "/ws/out/css")
        (trace (deployFile Sample.fresh_directory "proj/css/site.css"
                  (Sample.local_target (Some "out") None) None))
  /\ file_event_ok Sample.fresh_directory "proj/css/site.css"
       (Sample.local_target (Some "out") None)
       "/ws/out/css/site.css" "/ws/out/css" (EvMkdirs "/ws/out/css").
Proof.
  assert (Hin : In (EvMkdirs "/ws/out/css")
                   (trace (deployFile Sample.fresh_directory
                             "proj/css/site.css"
                             (Sample.local_target (Some "out") None) None))).
  { simpl. right. left. reflexivity. }
  split; [reflexivity | split; [exact Hin |]].
  exact (deployFile_concerns_one_destination Sample.fresh_directory
           "proj/css/site.css" (Sample.local_target (Some "out") None) None
           "css/site.css" eq_refl (EvMkdirs "/ws/out/css") Hin).
Defined.

(* ===================================================================== *)
(** ** Further properties of [deployWorkspace] *)
(* ===================================================================== *)

(** The outcomes of [then_call] are those of the callee, when there are
    any. *)
Lemma then_call_outcomes :
  forall (evs : list Event) (callee : Run) (e : Exn),
    In (Threw e) (map outcome callee) ->
    In (Threw e) (map outcome (then_call (evs, inl tt) callee)).
Proof.
  intros evs callee e. unfold then_call.
  destruct callee as [| turn rest]; simpl; auto.
Qed.

(** X6. Unless [target.empty] is set, [deployWorkspace] that is not
    cancelled does nothing of its own: it empties nothing, writes nothing
    to the output channel and calls no handler, but hands the files, the
    target and the options as they are to the base class, within the
    same synchronous call; the run is the run of the base class. *)
Theorem deployWorkspace_without_empty_only_delegates :
  forall (w : World)
         (super : list string -> DeployTargetLocal ->
                  option DeployWorkspaceOptions -> Run)
         (files : list string) (t : DeployTargetLocal)
         (opts : option DeployWorkspaceOptions),
    isCancelling w = false ->
    toBooleanSafe (empty t) false = false ->
    let r := deployWorkspace w super files t opts in
    trace r = EvSuperDeployWorkspace files t opts
              :: trace (super files t opts)
    /\ List.length r = Nat.max 1 (List.length (super files t opts))
    /\ (forall e, In (Threw e) (map outcome r)
                  <-> In (Threw e) (map outcome (super files t opts))).
Proof.
  intros w super files t opts Hc He. cbv zeta.
  unfold deployWorkspace, startDeploying. rewrite Hc, He.
  split; [| split].
  - unfold then_call, emit, trace.
    destruct (super files t opts); reflexivity.
  - unfold then_call, emit.
    destruct (super files t opts); reflexivity.
  - intros e. split.
    + apply then_call_throws.
    + apply then_call_outcomes.
Qed.

Lemma deployWorkspace_without_empty_only_delegates_witness :
  isCancelling Sample.calm = false
  /\ toBooleanSafe (empty (Sample.local_target (Some "out") None)) false
     = false
  /\ trace (LocalPlugin_deployWorkspace Sample.calm ["proj/a.txt"]
              (Sample.local_target (Some "out") None)
              (Some Sample.quiet_workspace_options))
     = EvSuperDeployWorkspace ["proj/a.txt"]
         (Sample.local_target (Some "out") None)
         (Some Sample.quiet_workspace_options)
       :: trace (base_deployWorkspace Sample.calm ["proj/a.txt"]
                   (Sample.local_target (Some "out") None)
                   (Some Sample.quiet_workspace_options)).
Proof.
  split; [reflexivity | split; [reflexivity |]].
  exact (proj1 (deployWorkspace_without_empty_only_delegates Sample.calm
                  (base_deployWorkspace Sample.calm) ["proj/a.txt"]
                  (Sample.local_target (Some "out") None)
                  (Some Sample.quiet_workspace_options) eq_refl eq_refl)).
Defined.

(** X7. With options that carry no [onCompleted], [deployWorkspace] ends
    a cancelled or failed run without telling anyone: a cancellation at
    entry leaves no event at all, and a failed emptying shows in the
    output channel only; in both cases nothing is thrown and no per-file
    deployment is started. *)
Theorem deployWorkspace_without_handler_ends_silently :
  forall (w : World)
         (super : list string -> DeployTargetLocal ->
                  option DeployWorkspaceOptions -> Run)
         (files : list string) (t : DeployTargetLocal)
         (o : DeployWorkspaceOptions),
    ws_onCompleted o = None ->
    let d := workspaceTargetDir w t in
    let r := deployWorkspace w super files t (Some o) in
    (isCancelling w = true ->
     r = [ {| events := []; outcome := Returned |} ])
    /\ (forall err,
          isCancelling w = false ->
          toBooleanSafe (empty t) false = true ->
          fs_emptyDir w d = Some err ->
          r = [ {| events :=
                     [ EvAppend ("Empty LOCAL target directory '"
                                   ++ d ++ "'... ");
                       EvEmptyDir d ];
                   outcome := Returned |};
                {| events :=
                     [ EvAppend ("[FAILED: " ++ exn_to_string err ++ "]") ];
                   outcome := Returned |} ]).
Proof.
  intros w super files t o Hnone. cbv zeta. split.
  - intros Hc. unfold_workspace. rewrite Hc, Hnone. reflexivity.
  - intros err Hc He Hempty. unfold_workspace.
    rewrite Hc, He, Hempty, Hnone. reflexivity.
Qed.

Lemma deployWorkspace_without_handler_ends_silently_witness :
  ws_onCompleted Hooks.no_workspace_hooks = None
  /\ isCancelling Sample.no_emptying = false
  /\ toBooleanSafe (empty (Sample.local_target (Some "out") (Some true)))
       false = true
  /\ fs_emptyDir Sample.no_emptying "/ws/out" = Some (Error "EBUSY")
  /\ LocalPlugin_deployWorkspace Sample.no_emptying ["proj/a.txt"]
       (Sample.local_target (Some "out") (Some true))
       (Some Hooks.no_workspace_hooks)
     = [ {| events :=
              [ EvAppend "Empty LOCAL target directory '/ws/out'... ";
                EvEmptyDir "/ws/out" ];
            outcome := Returned |};
         {| events := [ EvAppend "[FAILED: Error: EBUSY]" ];
            outcome := Returned |} ].
Proof.
  repeat (split; [reflexivity |]).
  destruct (deployWorkspace_without_handler_ends_silently Sample.no_emptying
              (base_deployWorkspace Sample.no_emptying) ["proj/a.txt"]
              (Sample.local_target (Some "out") (Some true))
              Hooks.no_workspace_hooks eq_refl) as (_ & Hfail).
  exact (Hfail (Error "EBUSY") eq_refl eq_refl eq_refl).
Defined.

(** X8. With options given, [deployWorkspace] throws nothing of its own:
    a turn of the run that throws is a turn of the base class, or the
    workspace [onCompleted] handler threw when it was called for this
    target. *)
Theorem deployWorkspace_contains_exceptions :
  forall (w : World)
         (super : list string -> DeployTargetLocal ->
                  option DeployWorkspaceOptions -> Run)
         (files : list string) (t : DeployTargetLocal)
         (o : DeployWorkspaceOptions) (e : Exn),
    In (Threw e) (map outcome (deployWorkspace w super files t (Some o))) ->
    (exists handler a,
        ws_onCompleted o = Some handler
        /\ handler a = Threw e /\ wc_target a = t)
    \/ In (Threw e) (map outcome (super files t (Some o))).
Proof.
  intros w super files t o e Hin.
  unfold deployWorkspace, emptyDir_callback, startDeploying, ws_completed
    in Hin.
  destruct (isCancelling w).
  - left. unfold run_turn, invoke, ret in Hin.
    destruct (ws_onCompleted o) as [h |]; [| in_cases Hin; discriminate].
    exists h. revert Hin. split_cases; intros Hin; in_cases Hin;
      try discriminate; injection Hin as <-.
    match goal with
    | H : h ?a = Threw _ |- _ => exists a; repeat split; exact H
    end.
  - destruct (toBooleanSafe (empty t) false).
    + unfold then_callback, bind, emit in Hin. simpl in Hin.
      destruct Hin as [Habs | Hin]; [discriminate |].
      destruct (fs_emptyDir w (workspaceTargetDir w t)) as [err |].
      * left. unfold run_turn, bind, emit, invoke, ret in Hin.
        destruct (ws_onCompleted o) as [h |]; [| in_cases Hin; discriminate].
        exists h. revert Hin. split_cases; intros Hin; in_cases Hin;
          try discriminate; injection Hin as <-.
        match goal with
        | H : h ?a = Threw _ |- _ => exists a; repeat split; exact H
        end.
      * right. apply then_call_throws in Hin.
        apply then_call_throws in Hin. exact Hin.
    + right. apply then_call_throws in Hin. exact Hin.
Qed.

Lemma deployWorkspace_contains_exceptions_witness :
  In (Threw (Error "handler failed"))
     (map outcome
        (LocalPlugin_deployWorkspace Sample.cancelling ["proj/a.txt"]
           (Sample.local_target (Some "out") None)
           (Some Hooks.failing_workspace_options)))
  /\ ((exists handler a,
          ws_onCompleted Hooks.failing_workspace_options = Some handler
          /\ handler a = Threw (Error "handler failed")
          /\ wc_target a = Sample.local_target (Some "out") None)
      \/ In (Threw (Error "handler failed"))
            (map outcome
               (base_deployWorkspace Sample.cancelling ["proj/a.txt"]
                  (Sample.local_target (Some "out") None)
                  (Some Hooks.failing_workspace_options)))).
Proof.
  assert (Hin : In (Threw (Error "handler failed"))
                   (map outcome
                      (LocalPlugin_deployWorkspace Sample.cancelling
                         ["proj/a.txt"]
                         (Sample.local_target (Some "out") None)
                         (Some Hooks.failing_workspace_options)))).
  { simpl. left. reflexivity. }
  split; [exact Hin |].
  exact (deployWorkspace_contains_exceptions Sample.cancelling
           (base_deployWorkspace Sample.cancelling) ["proj/a.txt"]
           (Sample.local_target (Some "out") None)
           Hooks.failing_workspace_options (Error "handler failed") Hin).
Defined.

(* ===================================================================== *)
(** ** Further properties of the destination root *)
(* ===================================================================== *)

Lemma normalize_keeps_absolute :
  forall p : string,
    Path.isAbsolute p = true -> Path.isAbsolute (Path.normalize p) = true.
Proof.
  intros p Habs. destruct p as [| c s]; [discriminate |].
  unfold Path.normalize. cbn [String.eqb].
  rewrite Habs. cbn [negb].
  destruct (String.eqb _ ""); reflexivity.
Qed.

Lemma append_keeps_absolute :
  forall a b : string,
    Path.isAbsolute a = true -> Path.isAbsolute (a ++ b) = true.
Proof.
  intros a b Habs. destruct a; [discriminate | exact Habs].
Qed.

Lemma join_keeps_absolute :
  forall (a : string) (rest : list string),
    Path.isAbsolute a = true -> Path.isAbsolute (Path.join (a :: rest)) = true.
Proof.
  intros a rest Habs. unfold Path.join. cbn [filter].
  destruct a as [| c s]; [discriminate |]. cbn [String.eqb negb].
  apply normalize_keeps_absolute.
  cbn [String.concat].
  destruct (filter _ rest); [exact Habs |].
  apply append_keeps_absolute. exact Habs.
Qed.

Lemma dirname_keeps_absolute :
  forall p : string,
    Path.isAbsolute p = true -> Path.isAbsolute (Path.dirname p) = true.
Proof.
  intros p Habs. destruct p as [| c s]; [discriminate |].
  unfold Path.dirname. cbn [Path.isAbsolute] in Habs. rewrite Habs.
  destruct (Path.dirnameScan _ true) as [[| k kept] |];
    try reflexivity; exact Habs.
Qed.

Lemma getFullDirPathFromTarget_absolute :
  forall (w : World) (t : DeployTargetLocal),
    Path.isAbsolute (rootPath w) = true ->
    Path.isAbsolute (getFullDirPathFromTarget w t) = true.
Proof.
  intros w t Hroot. unfold getFullDirPathFromTarget.
  set (d := if String.eqb (toStringSafe (dir t)) "" then "./"
            else toStringSafe (dir t)).
  destruct (Path.isAbsolute d) eqn:Hd; cbn [negb].
  - exact Hd.
  - apply join_keeps_absolute. exact Hroot.
Qed.

(** X9. Below an absolute workspace root, [deployFile] hands only
    absolute paths to the file system as destinations, whatever
    [target.dir] and the mapped relative path are: the directory it
    checks and creates and the file it copies to. *)
Theorem deployFile_destinations_absolute :
  forall (w : World) (file : string) (t : DeployTargetLocal)
         (opts : option DeployFileOptions),
    Path.isAbsolute (rootPath w) = true ->
    forall e,
      In e (trace (deployFile w file t opts)) ->
      destination_absolute e = true.
Proof.
  intros w file t opts Hroot e Hin.
  pose proof (getFullDirPathFromTarget_absolute w t Hroot) as Hdir.
  unfold_plugin.
  destruct (isCancelling w).
  - revert Hin. split_cases; intros Hin; in_cases Hin; subst e; reflexivity.
  - destruct (toRelativeTargetPath w file t _) as [rel |].
    + assert (Hfile : Path.isAbsolute
                        (Path.join [getFullDirPathFromTarget w t; rel])
                      = true)
        by (apply join_keeps_absolute; exact Hdir).
      pose proof (dirname_keeps_absolute _ Hfile) as Hparent.
      revert Hin.
      split_cases; intros Hin; in_cases Hin; subst e; simpl;
        first [reflexivity | exact Hfile | exact Hparent].
    + revert Hin. split_cases; intros Hin; in_cases Hin; subst e;
        reflexivity.
Qed.

Lemma deployFile_destinations_absolute_witness :
  Path.isAbsolute (rootPath Sample.calm) = true
  /\ In (EvCopy "proj/readme.md" "/ws/readme.md")
        (trace (deployFile Sample.calm "proj/readme.md"
                  (Sample.local_target None None) None))
  /\ destination_absolute (EvCopy "proj/readme.md" "/ws/readme.md") = true.
Proof.
  assert (Hin : In (EvCopy "proj/readme.md" "/ws/readme.md")
                   (trace (deployFile Sample.calm "proj/readme.md"
                             (Sample.local_target None None) None))).
  { simpl. right. left. reflexivity. }
  split; [reflexivity | split; [exact Hin |]].
  exact (deployFile_destinations_absolute Sample.calm "proj/readme.md"
           (Sample.local_target None None) None eq_refl _ Hin).
Defined.

(** X10. The directory [deployWorkspace] empties: with [target.empty]
    set and no cancellation, [emptyDir] is called on the destination
    root, which is absolute whenever the workspace root is, and which is
    the workspace root itself (normalized) when [target.dir] is absent or
    empty. *)
Theorem deployWorkspace_emptied_directory :
  forall (w : World)
         (super : list string -> DeployTargetLocal ->
                  option DeployWorkspaceOptions -> Run)
         (files : list string) (t : DeployTargetLocal)
         (opts : option DeployWorkspaceOptions),
    isCancelling w = false ->
    toBooleanSafe (empty t) false = true ->
    exists d,
      In (EvEmptyDir d) (trace (deployWorkspace w super files t opts))
      /\ (Path.isAbsolute (rootPath w) = true -> Path.isAbsolute d = true)
      /\ (toStringSafe (dir t) = "" -> rootPath w <> "" ->
          d = Path.normalize (rootPath w)).
Proof.
  intros w super files t opts Hc He.
  exists (workspaceTargetDir w t). split; [| split].
  - unfold deployWorkspace, then_callback, bind, emit, trace.
    rewrite Hc, He. simpl. right. left. reflexivity.
  - intros Hroot. unfold workspaceTargetDir.
    destruct (Path.isAbsolute (toStringSafe (dir t))) eqn:Hd; cbn [negb].
    + exact Hd.
    + apply join_keeps_absolute. exact Hroot.
  - intros Hd Hroot. unfold workspaceTargetDir. rewrite Hd.
    cbn [Path.isAbsolute negb]. unfold Path.join. cbn [filter String.eqb].
    destruct (rootPath w) as [| c s]; [exfalso; apply Hroot; reflexivity |].
    reflexivity.
Qed.

Lemma deployWorkspace_emptied_directory_witness :
  isCancelling Sample.calm = false
  /\ toBooleanSafe (empty (Sample.local_target None (Some true))) false
     = true
  /\ In (EvEmptyDir "/ws")
        (trace (LocalPlugin_deployWorkspace Sample.calm ["proj/a.txt"]
                  (Sample.local_target None (Some true)) None)).
Proof.
  split; [reflexivity | split; [reflexivity |]].
  destruct (deployWorkspace_emptied_directory Sample.calm
              (base_deployWorkspace Sample.calm) ["proj/a.txt"]
              (Sample.local_target None (Some true)) None eq_refl eq_refl)
    as (d & Hin & _ & Hroot).
  rewrite (Hroot eq_refl) in Hin by discriminate.
  exact Hin.
Defined.

(** X11. Resolving is stable: below an absolute workspace root, a
    target whose [dir] is replaced by the root that
    [getFullDirPathFromTarget] computed resolves to that same root, and
    for such a target the root [deployWorkspace] computes is the one
    [deployFile] uses. *)
Theorem resolved_dir_is_stable :
  forall (w : World) (t : DeployTargetLocal),
    Path.isAbsolute (rootPath w) = true ->
    let resolved := with_dir t (Some (getFullDirPathFromTarget w t)) in
    getFullDirPathFromTarget w resolved = getFullDirPathFromTarget w t
    /\ workspaceTargetDir w resolved = getFullDirPathFromTarget w resolved.
Proof.
  intros w t Hroot. cbv zeta.
  pose proof (getFullDirPathFromTarget_absolute w t Hroot) as Habs.
  assert (Hfix : getFullDirPathFromTarget w
                   (with_dir t (Some (getFullDirPathFromTarget w t)))
                 = getFullDirPathFromTarget w t).
  { unfold getFullDirPathFromTarget at 1. cbn [with_dir dir toStringSafe].
    destruct (getFullDirPathFromTarget w t) as [| c s] eqn:Hr;
      [discriminate |].
    cbn [String.eqb]. rewrite Habs. reflexivity. }
  split; [exact Hfix |].
  rewrite Hfix. unfold workspaceTargetDir. cbn [with_dir dir toStringSafe].
  rewrite Habs. reflexivity.
Qed.

Lemma resolved_dir_is_stable_witness :
  Path.isAbsolute (rootPath Sample.calm) = true
  /\ getFullDirPathFromTarget Sample.calm
       (with_dir (Sample.local_target None None)
          (Some (getFullDirPathFromTarget Sample.calm
                   (Sample.local_target None None))))
     = "/ws/"
  /\ workspaceTargetDir Sample.calm
       (with_dir (Sample.local_target None None)
          (Some (getFullDirPathFromTarget Sample.calm
                   (Sample.local_target None None))))
     = "/ws/".
Proof.
  split; [reflexivity |].
  destruct (resolved_dir_is_stable Sample.calm
              (Sample.local_target None None) eq_refl) as (Hfix & Hsame).
  split.
  - exact Hfix.
  - rewrite Hsame. exact Hfix.
Defined.

(* ===================================================================== *)
(** ** The directory comes first, with or without hooks *)
(* ===================================================================== *)

(** X12. Whatever hooks the options carry, [deployFile] never announces
    or copies a file before the destination directory is known to exist:
    every [onBeforeDeploy] call and every copy comes strictly after an
    existence check that answered yes or a directory creation that went
    through.  In particular nothing is copied when the directory is
    absent and cannot be created. *)
Theorem deployFile_directory_first :
  forall (w : World) (file : string) (t : DeployTargetLocal)
         (opts : option DeployFileOptions) (rel : string),
    toRelativeTargetPath w file t (baseDirectory (options_or_empty opts))
    = Some rel ->
    let d := Path.dirname (Path.join [getFullDirPathFromTarget w t; rel]) in
    let tr := trace (deployFile w file t opts) in
    precedes (ensures_directory w d) is_before_deploy tr
    /\ precedes (ensures_directory w d) is_copy tr
    /\ (forall err,
          fs_exists w d = false -> fs_mkdirs w d = Some err ->
          forall e, In e tr -> is_copy e = false).
Proof.
  intros w file t opts rel Hrel. cbv zeta.
  unfold_plugin. rewrite Hrel.
  set (targetFile := Path.join [getFullDirPathFromTarget w t; rel]).
  set (d := Path.dirname targetFile).
  destruct (isCancelling w);
    [| destruct (fs_exists w d) eqn:Hex;
       [| destruct (fs_mkdirs w d) as [errm |] eqn:Hmk ] ];
    split_cases; simpl;
    (split; [by_scan |]); (split; [by_scan |]);
    intros ? Hex' Hmk' ev Hin; try discriminate;
    in_cases Hin; subst ev; reflexivity.
Qed.

Lemma deployFile_directory_first_witness :
  toRelativeTargetPath Sample.no_directory "proj/css/site.css"
    (Sample.local_target (Some "out") None)
    (baseDirectory (options_or_empty None))
  = Some "css/site.css"
  /\ fs_exists Sample.no_directory "/ws/out/css" = false
  /\ fs_mkdirs Sample.no_directory "/ws/out/css" = Some (Error "EACCES")
  /\ forall e,
      In e (trace (deployFile Sample.no_directory "proj/css/site.css"
                     (Sample.local_target (Some "out") None) None)) ->
      is_copy e = false.
Proof.
  repeat (split; [reflexivity |]).
  destruct (deployFile_directory_first Sample.no_directory
              "proj/css/site.css" (Sample.local_target (Some "out") None)
              None "css/site.css" eq_refl) as (_ & _ & Hnone).
  exact (Hnone (Error "EACCES") eq_refl eq_refl).
Defined.
